(** * AirlinePoc: the seat-selection controller of the reservation page

    A shallow embedding of the seat-selection logic of the frontend:

    - [apiClient.js]: [normalizeReservationPayload], [fetchReservationById],
      [updateReservationSeatSelection];
    - [components/SeatMap.jsx]: the seat-map widget, its seat buttons and its
      two confirm buttons;
    - [pages/ReservationConfirmationPage.jsx]: the page's React state, the
      reservation-loading effect with its [cancelled] flag, [handleSeatToggle]
      and [handleSeatConfirm].

    Modelling conventions.

    - JSON data is a tree [JsVal]; numbers are integers ([Z]); objects are
      association lists read by their first binding of a key.
    - Strings are [string]; [trim] and [toUpperCase] are the ASCII parts of the
      JavaScript methods (white space is TAB, LF, VT, FF, CR and SPACE; only
      [a]-[z] change case).  Seat identifiers are ASCII text.
    - A React component is its state record; a handler is a function on it.
      Every handler call reads the state committed by the previous one (React
      renders between two UI events), and a state updater runs on the latest
      state.
    - An [await] splits a handler in two: the part before it issues a request
      and leaves a continuation in the world ([pendingConfirm], [effects]);
      the part after it runs when the request settles, on what the closure
      captured. *)

From Stdlib Require Import List String Ascii ZArith Lia Bool DecimalString.
From Stdlib Require Import Permutation Sorted.
Import ListNotations.
Open Scope string_scope.
Set Warnings "-register-all".

(** ** JavaScript values and strings *)

Module Js.

Inductive JsVal : Type :=
| JUndefined
| JNull
| JBool (b : bool)
| JNum (n : Z)
| JStr (s : string)
| JArr (items : list JsVal)
| JObj (fields : list (string * JsVal)).

(** An empty object literal. *)
Definition emptyObj : JsVal := JObj [].

Fixpoint lookup (k : string) (fields : list (string * JsVal)) : JsVal :=
  match fields with
  | [] => JUndefined
  | (k', v) :: rest => if String.eqb k k' then v else lookup k rest
  end.

(** [v?.k], and [v.k] on a value that is not null or undefined, for the
    property names the code reads (none of them is built in on a string, a
    number or an array). *)
Definition get (k : string) (v : JsVal) : JsVal :=
  match v with
  | JObj fields => lookup k fields
  | _ => JUndefined
  end.

Definition isNullish (v : JsVal) : bool :=
  match v with
  | JUndefined | JNull => true
  | _ => false
  end.

(** [a ?? b] *)
Definition coalesce (a b : JsVal) : JsVal := if isNullish a then b else a.

Notation "a ?? b" := (coalesce a b) (at level 45, right associativity).

(** [Boolean(v)] *)
Definition truthy (v : JsVal) : bool :=
  match v with
  | JUndefined | JNull => false
  | JBool b => b
  | JNum n => negb (Z.eqb n 0)
  | JStr s => negb (String.eqb s "")
  | JArr _ | JObj _ => true
  end.

(** [Array.isArray(v) ? v : fallback], as the list of the array's items. *)
Definition arrayOr (v : JsVal) (fallback : list JsVal) : list JsVal :=
  match v with
  | JArr items => items
  | _ => fallback
  end.

Definition isArray (v : JsVal) : bool :=
  match v with
  | JArr _ => true
  | _ => false
  end.

(** Decimal notation of an integer, as in a template literal. *)
Definition numToString (n : Z) : string := NilZero.string_of_int (Z.to_int n).

Fixpoint join (sep : string) (parts : list string) : string :=
  match parts with
  | [] => ""
  | [p] => p
  | p :: rest => p ++ sep ++ join sep rest
  end.

(** [String(v)] *)
Fixpoint toString (v : JsVal) : string :=
  match v with
  | JUndefined => "undefined"
  | JNull => "null"
  | JBool true => "true"
  | JBool false => "false"
  | JNum n => numToString n
  | JStr s => s
  | JArr items =>
      join ","
        (map (fun item => if isNullish item then "" else toString item) items)
  | JObj _ => "[object Object]"
  end.

(** White space removed by [String.prototype.trim], in ASCII. *)
Definition isWhiteSpace (c : ascii) : bool :=
  let n := nat_of_ascii c in
  ((9 <=? n) && (n <=? 13) || (n =? 32))%nat.

Fixpoint trimStart (s : string) : string :=
  match s with
  | EmptyString => EmptyString
  | String c rest => if isWhiteSpace c then trimStart rest else s
  end.

Fixpoint trimEnd (s : string) : string :=
  match s with
  | EmptyString => EmptyString
  | String c rest =>
      match trimEnd rest with
      | EmptyString => if isWhiteSpace c then EmptyString else String c EmptyString
      | kept => String c kept
      end
  end.

Definition trim (s : string) : string := trimEnd (trimStart s).

Definition upperChar (c : ascii) : ascii :=
  let n := nat_of_ascii c in
  if ((97 <=? n) && (n <=? 122))%nat then ascii_of_nat (n - 32) else c.

Fixpoint toUpperCase (s : string) : string :=
  match s with
  | EmptyString => EmptyString
  | String c rest => String (upperChar c) (toUpperCase rest)
  end.

(** [Array.prototype.includes] on strings. *)
Definition includes (l : list string) (x : string) : bool :=
  existsb (String.eqb x) l.

(** [Array.from(new Set(l))]: the items in the order of their first
    occurrence.  [seen] is the set built so far. *)
Fixpoint setFrom (seen : list string) (l : list string) : list string :=
  match l with
  | [] => []
  | x :: rest =>
      if includes seen x then setFrom seen rest
      else x :: setFrom (x :: seen) rest
  end.

Definition arrayFromSet (l : list string) : list string := setFrom [] l.

(** [Array.prototype.sort] without a comparator, on strings: ascending code
    unit order. *)
Fixpoint insertSorted (x : string) (l : list string) : list string :=
  match l with
  | [] => [x]
  | y :: rest => if String.leb x y then x :: l else y :: insertSorted x rest
  end.

Fixpoint sort (l : list string) : list string :=
  match l with
  | [] => []
  | x :: rest => insertSorted x (sort rest)
  end.

(** [l.slice(0, n)] for [n >= 0]. *)
Definition slice0 (n : Z) (l : list string) : list string :=
  firstn (Z.to_nat n) l.

(** [a || b] *)
Definition orElse (a b : JsVal) : JsVal := if truthy a then a else b.

(** [typeof v === 'object'] for a value that is not null. *)
Definition isObject (v : JsVal) : bool :=
  match v with
  | JArr _ | JObj _ => true
  | _ => false
  end.

(** [typeof v === 'string'] *)
Definition isString (v : JsVal) : bool :=
  match v with
  | JStr _ => true
  | _ => false
  end.

(** [Object.values(v)] of an object, in the order of its fields. *)
Definition values (fields : list (string * JsVal)) : list JsVal :=
  map snd fields.

(** [s.padStart(2, '0')] *)
Definition padStart2 (s : string) : string :=
  match s with
  | EmptyString => "00"
  | String c EmptyString => String "0" s
  | _ => s
  end.

(** The character classes of the two regular expressions of
    [extractAssistantReplies]: [[a-zA-Z]] and [[A-Z0-9_\-]]. *)
Definition isLetter (c : ascii) : bool :=
  let n := nat_of_ascii c in
  ((97 <=? n) && (n <=? 122) || (65 <=? n) && (n <=? 90))%nat.

Definition isMetadataChar (c : ascii) : bool :=
  let n := nat_of_ascii c in
  ((65 <=? n) && (n <=? 90) || (48 <=? n) && (n <=? 57)
   || (n =? 95) || (n =? 45))%nat.

Fixpoint existsChar (f : ascii -> bool) (s : string) : bool :=
  match s with
  | EmptyString => false
  | String c rest => f c || existsChar f rest
  end.

Fixpoint forallChar (f : ascii -> bool) (s : string) : bool :=
  match s with
  | EmptyString => true
  | String c rest => f c && forallChar f rest
  end.

End Js.

(** ** apiClient.js *)

Module ApiClient.
Import Js.

Module SeatSelection.
Record t : Type := {
  selectedSeats : option (list string);
  updatedAt : JsVal
}.
End SeatSelection.

(** The object built by [normalizeReservationPayload].  [passengerCount] is
    the payload's [passenger_count] when it is an integer, [None] when it is
    null or missing; [seatSelection] and [selectedSeats] are optional because
    the page reads them with [?.] and [??]. *)
Record Reservation : Type := {
  reservationId : JsVal;
  seatClass : JsVal;
  passengerCount : option Z;
  bookedAt : JsVal;
  totalPriceUsd : JsVal;
  passengers : list JsVal;
  flight : JsVal;
  bill : JsVal;
  seatMap : JsVal;
  seatSelection : option SeatSelection.t;
  selectedSeats : option (list string);
  raw : JsVal
}.

(** A thrown [Error]: its message, and the [code], [status] and [envelope]
    the gateway attaches.  [message] is [None] for a rejection that carries
    none. *)
Record JsError : Type := {
  message : option string;
  code : JsVal;
  status : option Z;
  envelope : JsVal
}.

(** How an HTTP request of [apiClient] settles. *)
Inductive HttpOutcome : Type :=
| Responded (data : JsVal)
    (** the promise resolves; [data] is [response.data] *)
| Refused (httpStatus : Z) (data : JsVal)
    (** it rejects with [error.response] set: [status] and [data] *)
| Failed (err : JsError)
    (** it rejects without a response *).

(** [reservation.passenger_count] for the counts this development covers: an
    integer, or null or missing.  The source keeps any other value as it
    is and [Math.max] coerces it with [Number]; such a count (a string, a
    boolean, a fraction) is outside the model, and no statement below is
    about one. *)
Definition asCount (v : JsVal) : option Z :=
  match v with
  | JNum n => Some n
  | _ => None
  end.

(** The pipeline both gateway functions apply to a seat list:
    drop null and undefined, [String(seat).trim().toUpperCase()], drop the
    empty results, and pass through a [Set]. *)
Definition normalizeSeatId (seat : JsVal) : string :=
  toUpperCase (trim (toString seat)).

Definition nonEmpty (s : string) : bool := negb (String.eqb s "").

Definition normalizeSeatList (seats : list JsVal) : list string :=
  arrayFromSet
    (filter nonEmpty
       (map normalizeSeatId
          (filter (fun seat => negb (isNullish seat)) seats))).

Definition normalizeReservationPayload (value : JsVal) : Reservation :=
  let container := get "data" value ?? value in
  let reservation := get "reservation" container ?? emptyObj in
  let bill := get "bill" container ?? get "bill" value ?? JNull in
  let seatSelectionRaw := get "seat_selection" container ?? emptyObj in
  let fromReservation := arrayOr (get "seat_assignments" reservation) [] in
  let selectedCandidates :=
    if isArray (get "selected_seats" seatSelectionRaw)
    then get "selected_seats" seatSelectionRaw
    else get "selectedSeats" seatSelectionRaw in
  let normalizedSeats := arrayOr selectedCandidates fromReservation in
  let selectedSeats := normalizeSeatList normalizedSeats in
  let seatSelection :=
    {| SeatSelection.selectedSeats := Some selectedSeats;
       SeatSelection.updatedAt :=
         get "updated_at" seatSelectionRaw ?? get "updatedAt" seatSelectionRaw
           ?? get "seat_assignments_updated_at" reservation ?? JNull |} in
  let seatMap := get "seat_map" container ?? get "seatMap" container ?? JNull in
  {| reservationId := get "reservation_id" reservation;
     seatClass := get "seat_class" reservation;
     passengerCount := asCount (get "passenger_count" reservation);
     bookedAt := get "booked_at" reservation;
     totalPriceUsd := get "total_price_usd" reservation;
     passengers := arrayOr (get "passengers" reservation) [];
     flight := get "flight_details" reservation ?? JNull;
     bill := bill;
     seatMap := seatMap;
     seatSelection := Some seatSelection;
     selectedSeats := Some selectedSeats;
     raw := reservation |}.

(** [new Error(v ?? fallback)]'s message. *)
Definition messageOr (v : JsVal) (fallback : string) : string :=
  if isNullish v then fallback else toString v.

(** What the [catch] block of both gateway functions makes of a rejection
    that has a response. *)
Definition enrich (notFound generic : string) (defaultCode : string)
    (httpStatus : Z) (data : JsVal) : JsError :=
  let detail := get "detail" data ?? data in
  {| message :=
       Some (messageOr (get "message" detail)
               (if Z.eqb httpStatus 404 then notFound else generic));
     code := get "code" detail ?? JStr defaultCode;
     status := Some httpStatus;
     envelope := detail |}.

Definition idRequired : JsError :=
  {| message := Some "Reservation ID is required.";
     code := JStr "RESERVATION_ID_REQUIRED";
     status := None;
     envelope := JUndefined |}.

(** What both gateway functions make of a settled request. *)
Definition settle (notFound generic : string) (defaultCode : string)
    (http : HttpOutcome) : JsError + (Reservation * JsVal) :=
  match http with
  | Responded envelope =>
      if negb (truthy (get "ok" envelope)) then
        inl {| message := Some (messageOr (get "message" envelope) generic);
               code := get "code" envelope ?? JStr defaultCode;
               status := None;
               envelope := envelope |}
      else inr (normalizeReservationPayload envelope, envelope)
  | Refused httpStatus data =>
      inl (enrich notFound generic defaultCode httpStatus data)
  | Failed err => inl err
  end.

(** [fetchReservationById(reservationId)]; [http] is how its GET request
    settles. *)
Definition fetchReservationById (reservationId : string) (http : HttpOutcome)
    : JsError + (Reservation * JsVal) :=
  if String.eqb reservationId "" then inl idRequired
  else
    settle "We could not find a reservation with that ID."
      "Unable to load the reservation details right now."
      "RESERVATION_FETCH_FAILED" http.

(** The PATCH request of [updateReservationSeatSelection]. *)
Record PatchRequest : Type := {
  patchReservationId : string;
  selected_seats : list string
}.

(** The part of [updateReservationSeatSelection({reservationId, seats})]
    before its [await]: the request it sends, or the error it throws. *)
Definition updateReservationSeatSelection_request
    (reservationId : string) (seats : JsVal) : JsError + PatchRequest :=
  if String.eqb reservationId "" then inl idRequired
  else
    inr {| patchReservationId := reservationId;
           selected_seats := normalizeSeatList (arrayOr seats []) |}.

(** The part after the [await]; [http] is how the PATCH request settles. *)
Definition updateReservationSeatSelection_settle (http : HttpOutcome)
    : JsError + (Reservation * JsVal) :=
  settle "We could not find that reservation when updating seats."
    "Unable to update seat selection right now."
    "SEAT_SELECTION_UPDATE_FAILED" http.

(** [extractSessionId(payload)] *)
Definition extractSessionId (payload : JsVal) : string :=
  if negb (truthy payload) then ""
  else
    let maybeSession :=
      orElse
        (orElse
           (orElse
              (orElse (get "name" (get "session" payload))
                 (get "sessionId" payload))
              (get "name" payload))
           (get "id" payload))
        (get "id" (get "session" payload)) in
    match maybeSession with
    | JStr s => s
    | _ => ""
    end.

Definition looksLikeReservationEnvelope (value : JsVal) : bool :=
  if negb (truthy value) || negb (isObject value) then false
  else
    let container := get "data" value ?? value in
    let reservation := get "reservation" container in
    truthy reservation && isObject reservation
    && isString (get "reservation_id" reservation).

(** [collectReservationsDeep(value, results, seen)] on a payload parsed from
    JSON: the new [results] and [seen].  Such a payload is a tree, every
    object is met once, and the [visited] set never stops the walk. *)
Fixpoint collectReservationsDeep (value : JsVal)
    (acc : list Reservation * list string) : list Reservation * list string :=
  match value with
  | JArr items =>
      fold_left (fun acc' item => collectReservationsDeep item acc') items acc
  | JObj fields =>
      let acc1 :=
        if looksLikeReservationEnvelope value then
          let normalized := normalizeReservationPayload value in
          match reservationId normalized with
          | JStr id =>
              if includes (snd acc) id then acc
              else ((fst acc ++ [normalized])%list, id :: snd acc)
          | _ => acc
          end
        else acc in
      fold_left
        (fun acc' field => collectReservationsDeep (snd field) acc')
        fields acc1
  | _ => acc
  end.

Definition extractReservations (payload : JsVal) : list Reservation :=
  if negb (truthy payload) then []
  else fst (collectReservationsDeep payload ([], [])).

(** The texts found under [key] among the texts of the fields. *)
Fixpoint textsOf (key : string) (children : list (string * list string))
    : list string :=
  match children with
  | [] => []
  | (k, texts) :: rest => if String.eqb key k then texts else textsOf key rest
  end.

(** [collectTextsDeep(value, texts)]: the texts it pushes, in order.  The
    texts of every field are computed first and read by key, which is the
    walk of the source on a payload parsed from JSON (see
    [collectTextsDeep_object]). *)
Fixpoint collectTextsDeep (value : JsVal) : list string :=
  match value with
  | JArr items => List.concat (map collectTextsDeep items)
  | JObj fields =>
      let children :=
        map (fun field => (fst field, collectTextsDeep (snd field))) fields in
      ((if isArray (lookup "parts" fields) then textsOf "parts" children else [])
      ++ match lookup "text" fields with
         | JStr text => if nonEmpty (trim text) then [trim text] else []
         | _ => []
         end
      ++ textsOf "content" children
      ++ textsOf "candidates" children
      ++ textsOf "contents" children
      ++ textsOf "output" children
      ++ textsOf "response" children
      ++ textsOf "result" children
      ++ textsOf "data" children
      ++ (if isArray (lookup "messages" fields)
          then textsOf "messages" children else []))%list
  | _ => []
  end.

(** The filter of [extractAssistantReplies]. *)
Definition looksLikeSentence (text : string) : bool :=
  let trimmed := trim text in
  if negb (nonEmpty trimmed) then false
  else
    let hasSentenceChar := existsChar isLetter trimmed in
    let isMetadata :=
      nonEmpty trimmed && forallChar isMetadataChar trimmed
      && (String.length trimmed <=? 20)%nat in
    hasSentenceChar && negb isMetadata.

Definition extractAssistantReplies (payload : JsVal) : list string :=
  if negb (truthy payload) then []
  else
    let response := get "response" payload ?? get "result" payload ?? payload in
    let potentialSources :=
      [get "output" response; get "candidate" response;
       get "candidates" response; get "events" payload;
       get "output" payload; get "response" payload; payload] in
    let texts := List.concat (map collectTextsDeep potentialSources) in
    let filtered := filter looksLikeSentence texts in
    match filtered with
    | [] => texts
    | _ => filtered
    end.

End ApiClient.

(** ** components/SeatMap.jsx *)

Module SeatMapWidget.
Import Js.

Record Seat : Type := {
  id : string;
  status : string
}.

(** The props the widget reads; a handler prop is present or not. *)
Record Props : Type := {
  selectedSeats : list string;
  onSeatToggle : bool;
  onConfirmSelection : bool;
  isSyncing : bool
}.

(** A call of a handler prop. *)
Inductive Intent : Type :=
| SeatToggle (seatId : string)
| ConfirmSelection (seatIds : list string).

(** What the user can click. *)
Inductive Click : Type :=
| ClickSeat (seat : Seat)
| ClickFooterConfirm
| ClickDialogConfirm
| ClickDialogCancel.

Definition selectedSeatIds (p : Props) : list string :=
  arrayFromSet (map toUpperCase (selectedSeats p)).

Definition sortedSelected (p : Props) : list string :=
  sort (selectedSeatIds p).

Definition isEmpty (l : list string) : bool :=
  match l with
  | [] => true
  | _ => false
  end.

Definition handleSeatClick (p : Props) (seat : Seat) : list Intent :=
  if isSyncing p || negb (onSeatToggle p) then []
  else
    let normalized := toUpperCase (id seat) in
    if negb (String.eqb (status seat) "available")
       && negb (includes (selectedSeatIds p) normalized)
    then []
    else [SeatToggle normalized].

(** [handleConfirm]: the new value of [showDialog]. *)
Definition handleConfirm (p : Props) (showDialog : bool) : bool :=
  if negb (onConfirmSelection p) then showDialog else true.

(** [handleConfirmDialog]: the call of [onConfirmSelection]; calling a
    missing handler throws before the dialog is closed. *)
Definition handleConfirmDialog (p : Props) (showDialog : bool)
    (seatIds : list string) : bool * list Intent :=
  if onConfirmSelection p then (false, [ConfirmSelection seatIds])
  else (showDialog, []).

(** The [disabled] attribute of a seat button. *)
Definition seatDisabled (p : Props) (seat : Seat) : bool :=
  let normalized := toUpperCase (id seat) in
  let isSelected := includes (selectedSeatIds p) normalized in
  let isUnavailable :=
    negb (String.eqb (status seat) "available") && negb isSelected in
  isUnavailable || isSyncing p.

Definition footerConfirmDisabled (p : Props) : bool :=
  isSyncing p || isEmpty (sortedSelected p).

Definition dialogConfirmDisabled (p : Props) : bool :=
  isEmpty (sortedSelected p) || isSyncing p.

(** One click on the rendered widget: a button that is not rendered or is
    disabled runs no handler.  The result is the new [showDialog] and the
    handler props called. *)
Definition click (p : Props) (showDialog : bool) (c : Click)
    : bool * list Intent :=
  match c with
  | ClickSeat seat =>
      if seatDisabled p seat then (showDialog, [])
      else (showDialog, handleSeatClick p seat)
  | ClickFooterConfirm =>
      if negb (onConfirmSelection p) || footerConfirmDisabled p
      then (showDialog, [])
      else (handleConfirm p showDialog, [])
  | ClickDialogConfirm =>
      if negb showDialog || dialogConfirmDisabled p then (showDialog, [])
      else handleConfirmDialog p showDialog (sortedSelected p)
  | ClickDialogCancel =>
      if negb showDialog || isSyncing p then (showDialog, [])
      else (false, [])
  end.










End SeatMapWidget.

(** ** pages/ReservationConfirmationPage.jsx *)

Module Page.
Import Js.

(** The [useState] cells of the page that seat selection reads or writes. *)
Record State : Type := {
  reservation : option ApiClient.Reservation;
  loading : bool;
  error : string;
  refreshCount : nat;
  seatMap : JsVal;
  selectedSeats : list string;
  seatSelectionUpdatedAt : JsVal;
  seatSyncError : string;
  isSyncingSeats : bool;
  isSeatModalOpen : bool
}.

Definition setReservation (v : option ApiClient.Reservation) (s : State) : State :=
  {| reservation := v; loading := loading s; error := error s;
     refreshCount := refreshCount s; seatMap := seatMap s;
     selectedSeats := selectedSeats s;
     seatSelectionUpdatedAt := seatSelectionUpdatedAt s;
     seatSyncError := seatSyncError s; isSyncingSeats := isSyncingSeats s;
     isSeatModalOpen := isSeatModalOpen s |}.

Definition setLoading (v : bool) (s : State) : State :=
  {| reservation := reservation s; loading := v; error := error s;
     refreshCount := refreshCount s; seatMap := seatMap s;
     selectedSeats := selectedSeats s;
     seatSelectionUpdatedAt := seatSelectionUpdatedAt s;
     seatSyncError := seatSyncError s; isSyncingSeats := isSyncingSeats s;
     isSeatModalOpen := isSeatModalOpen s |}.

Definition setError (v : string) (s : State) : State :=
  {| reservation := reservation s; loading := loading s; error := v;
     refreshCount := refreshCount s; seatMap := seatMap s;
     selectedSeats := selectedSeats s;
     seatSelectionUpdatedAt := seatSelectionUpdatedAt s;
     seatSyncError := seatSyncError s; isSyncingSeats := isSyncingSeats s;
     isSeatModalOpen := isSeatModalOpen s |}.

Definition setRefreshCount (v : nat) (s : State) : State :=
  {| reservation := reservation s; loading := loading s; error := error s;
     refreshCount := v; seatMap := seatMap s;
     selectedSeats := selectedSeats s;
     seatSelectionUpdatedAt := seatSelectionUpdatedAt s;
     seatSyncError := seatSyncError s; isSyncingSeats := isSyncingSeats s;
     isSeatModalOpen := isSeatModalOpen s |}.

Definition setSeatMap (v : JsVal) (s : State) : State :=
  {| reservation := reservation s; loading := loading s; error := error s;
     refreshCount := refreshCount s; seatMap := v;
     selectedSeats := selectedSeats s;
     seatSelectionUpdatedAt := seatSelectionUpdatedAt s;
     seatSyncError := seatSyncError s; isSyncingSeats := isSyncingSeats s;
     isSeatModalOpen := isSeatModalOpen s |}.

Definition setSelectedSeats (v : list string) (s : State) : State :=
  {| reservation := reservation s; loading := loading s; error := error s;
     refreshCount := refreshCount s; seatMap := seatMap s;
     selectedSeats := v;
     seatSelectionUpdatedAt := seatSelectionUpdatedAt s;
     seatSyncError := seatSyncError s; isSyncingSeats := isSyncingSeats s;
     isSeatModalOpen := isSeatModalOpen s |}.

Definition setSeatSelectionUpdatedAt (v : JsVal) (s : State) : State :=
  {| reservation := reservation s; loading := loading s; error := error s;
     refreshCount := refreshCount s; seatMap := seatMap s;
     selectedSeats := selectedSeats s;
     seatSelectionUpdatedAt := v;
     seatSyncError := seatSyncError s; isSyncingSeats := isSyncingSeats s;
     isSeatModalOpen := isSeatModalOpen s |}.

Definition setSeatSyncError (v : string) (s : State) : State :=
  {| reservation := reservation s; loading := loading s; error := error s;
     refreshCount := refreshCount s; seatMap := seatMap s;
     selectedSeats := selectedSeats s;
     seatSelectionUpdatedAt := seatSelectionUpdatedAt s;
     seatSyncError := v; isSyncingSeats := isSyncingSeats s;
     isSeatModalOpen := isSeatModalOpen s |}.

Definition setIsSyncingSeats (v : bool) (s : State) : State :=
  {| reservation := reservation s; loading := loading s; error := error s;
     refreshCount := refreshCount s; seatMap := seatMap s;
     selectedSeats := selectedSeats s;
     seatSelectionUpdatedAt := seatSelectionUpdatedAt s;
     seatSyncError := seatSyncError s; isSyncingSeats := v;
     isSeatModalOpen := isSeatModalOpen s |}.

Definition setSeatModalOpen (v : bool) (s : State) : State :=
  {| reservation := reservation s; loading := loading s; error := error s;
     refreshCount := refreshCount s; seatMap := seatMap s;
     selectedSeats := selectedSeats s;
     seatSelectionUpdatedAt := seatSelectionUpdatedAt s;
     seatSyncError := seatSyncError s; isSyncingSeats := isSyncingSeats s;
     isSeatModalOpen := v |}.

(** [r.seatSelection?.selectedSeats ?? r.selectedSeats ?? fallback] *)
Definition seatsOf (r : ApiClient.Reservation) (fallback : list string)
    : list string :=
  let fromSelection :=
    match ApiClient.seatSelection r with
    | Some selection => ApiClient.SeatSelection.selectedSeats selection
    | None => None
    end in
  match fromSelection with
  | Some seats => seats
  | None =>
      match ApiClient.selectedSeats r with
      | Some seats => seats
      | None => fallback
      end
  end.

(** [r.seatSelection?.updatedAt ?? ''] *)
Definition updatedAtOf (r : ApiClient.Reservation) : JsVal :=
  match ApiClient.seatSelection r with
  | Some selection => ApiClient.SeatSelection.updatedAt selection
  | None => JUndefined
  end ?? JStr "".

(** [maxSelectable], computed the same way by both seat handlers. *)
Definition maxSelectable (r : ApiClient.Reservation) : Z :=
  let count := Z.of_nat (List.length (ApiClient.passengers r)) in
  let fallbackPassengerCount := if Z.eqb count 0 then 1%Z else count in
  Z.max 1
    (match ApiClient.passengerCount r with
     | Some n => n
     | None => fallbackPassengerCount
     end).

Definition limitMessage (maxSelectable : Z) : string :=
  "You can select up to " ++ numToString maxSelectable ++ " seat"
    ++ (if Z.eqb maxSelectable 1 then "" else "s") ++ ".".

Definition handleSeatToggle (seatId : string) (s : State) : State :=
  match reservation s with
  | None => s
  | Some r =>
      if String.eqb seatId "" || isSyncingSeats s then s
      else
        let normalized := toUpperCase (trim seatId) in
        if String.eqb normalized "" then s
        else
          let maxSelectable := maxSelectable r in
          let prev := selectedSeats s in
          let alreadySelected := includes prev normalized in
          if alreadySelected then
            setSelectedSeats
              (filter (fun seat => negb (String.eqb seat normalized)) prev)
              (setSeatSyncError "" s)
          else if (Z.of_nat (List.length prev) >=? maxSelectable)%Z then
            setSelectedSeats prev (setSeatSyncError (limitMessage maxSelectable) s)
          else
            setSelectedSeats (prev ++ [normalized]) (setSeatSyncError "" s)
  end.

Definition handleOpenSeatModal (s : State) : State :=
  if negb (truthy (seatMap s)) then s
  else setSeatModalOpen true (setSeatSyncError "" s).

Definition handleCloseSeatModal (s : State) : State :=
  setSeatModalOpen false s.

(** What a call of [handleSeatConfirm] keeps across its [await]. *)
Record ConfirmCall : Type := {
  trimmedSeats : list string;
  previousServerSeats : list string
}.

(** [err?.message ?? fallback] *)
Definition errorMessage (err : ApiClient.JsError) (fallback : string) : string :=
  match ApiClient.message err with
  | Some m => m
  | None => fallback
  end.

(** [handleSeatConfirm] after its [await]: the [try] body on a result, the
    [catch] block on an error, then [finally]. *)
Definition handleSeatConfirm_settle (call : ConfirmCall)
    (result : ApiClient.JsError + (ApiClient.Reservation * JsVal))
    (s : State) : State :=
  let s' :=
    match result with
    | inr (updated, _) =>
        setSeatModalOpen false
          (setSeatSyncError ""
             (setSeatSelectionUpdatedAt (updatedAtOf updated)
                (setSelectedSeats (seatsOf updated (trimmedSeats call))
                   (setSeatMap (ApiClient.seatMap updated ?? JNull)
                      (setReservation (Some updated) s)))))
    | inl err =>
        setSelectedSeats (previousServerSeats call)
          (setSeatSyncError
             (errorMessage err
                "We could not save your seat selection. Please try again.")
             s)
    end in
  setIsSyncingSeats false s'.

(** One run of the loading effect: its [cancelled] flag, the reservation id
    of the GET request [loadReservation] sent (if it ran), and whether that
    request has settled. *)
Record EffectRun : Type := {
  cancelled : bool;
  request : option string;
  settled : bool
}.

(** The mounted page: route props, React state, the runs of the loading
    effect (oldest first), the calls of [handleSeatConfirm] that wait for
    their request, and the PATCH requests sent so far (oldest first). *)
Record World : Type := {
  reservationId : string;
  preloadedReservation : option ApiClient.Reservation;
  state : State;
  effects : list EffectRun;
  pendingConfirm : list ConfirmCall;
  patchLog : list ApiClient.PatchRequest
}.

Definition withState (s : State) (w : World) : World :=
  {| reservationId := reservationId w;
     preloadedReservation := preloadedReservation w;
     state := s; effects := effects w;
     pendingConfirm := pendingConfirm w; patchLog := patchLog w |}.

Definition withEffects (e : list EffectRun) (w : World) : World :=
  {| reservationId := reservationId w;
     preloadedReservation := preloadedReservation w;
     state := state w; effects := e;
     pendingConfirm := pendingConfirm w; patchLog := patchLog w |}.

Definition withPendingConfirm (p : list ConfirmCall) (w : World) : World :=
  {| reservationId := reservationId w;
     preloadedReservation := preloadedReservation w;
     state := state w; effects := effects w;
     pendingConfirm := p; patchLog := patchLog w |}.

Definition withPatchLog (l : list ApiClient.PatchRequest) (w : World) : World :=
  {| reservationId := reservationId w;
     preloadedReservation := preloadedReservation w;
     state := state w; effects := effects w;
     pendingConfirm := pendingConfirm w; patchLog := l |}.

(** [Array.isArray(seatIds) ? seatIds : selectedSeats]; [seatIds] is [None]
    when the argument is not an array. *)
Definition seatsToPersist (seatIds : option (list string)) (s : State)
    : list string :=
  match seatIds with
  | Some ids => ids
  | None => selectedSeats s
  end.

(** [trimmedSeats] *)
Definition trimSeats (maxSelectable : Z) (seatsToPersist : list string)
    : list string :=
  if (Z.of_nat (List.length seatsToPersist) >? maxSelectable)%Z
  then slice0 maxSelectable seatsToPersist
  else seatsToPersist.

(** The props the page passes to the seat-map widget. *)
Definition seatMapProps (s : State) : SeatMapWidget.Props :=
  {| SeatMapWidget.selectedSeats := selectedSeats s;
     SeatMapWidget.onSeatToggle := true;
     SeatMapWidget.onConfirmSelection := true;
     SeatMapWidget.isSyncing := isSyncingSeats s |}.

(** [handleSeatConfirm(seatIds)] up to its [await]. *)
Definition handleSeatConfirm (seatIds : option (list string)) (w : World)
    : World :=
  let s := state w in
  match reservation s with
  | None =>
      withState
        (setSeatSyncError
           "Reservation information is required before selecting seats." s) w
  | Some r =>
      if String.eqb (reservationId w) "" then
        withState
          (setSeatSyncError
             "Reservation information is required before selecting seats." s) w
      else if isSyncingSeats s then w
      else
        let seatsToPersist := seatsToPersist seatIds s in
        let maxSelectable := maxSelectable r in
        let trimmedSeats := trimSeats maxSelectable seatsToPersist in
        let call :=
          {| trimmedSeats := trimmedSeats;
             previousServerSeats := seatsOf r [] |} in
        let s1 := setSeatSyncError "" (setIsSyncingSeats true s) in
        match
          ApiClient.updateReservationSeatSelection_request (reservationId w)
            (JArr (map JStr trimmedSeats))
        with
        | inr req =>
            withPatchLog (patchLog w ++ [req])
              (withPendingConfirm (pendingConfirm w ++ [call])
                 (withState s1 w))
        | inl err =>
            withState (handleSeatConfirm_settle call (inl err) s1) w
        end
  end.

(** The state updates the effect and [loadReservation] make from a
    reservation [r] (the preloaded one, or the fetched one). *)
Definition showReservation (r : ApiClient.Reservation) (s : State) : State :=
  setSeatSyncError ""
    (setSeatSelectionUpdatedAt (updatedAtOf r)
       (setSelectedSeats (seatsOf r [])
          (setSeatMap (ApiClient.seatMap r ?? JNull)
             (setReservation (Some r) s)))).

(** [loadReservation] after its [await], in the effect run whose flag is
    [cancelled]. *)
Definition loadReservation_settle (cancelled : bool)
    (result : ApiClient.JsError + (ApiClient.Reservation * JsVal))
    (s : State) : State :=
  if cancelled then s
  else
    let s' :=
      match result with
      | inr (normalized, _) =>
          setSeatSyncError ""
            (setSeatSelectionUpdatedAt (updatedAtOf normalized)
               (setSelectedSeats (seatsOf normalized [])
                  (setSeatMap (ApiClient.seatMap normalized ?? JNull)
                     (setError "" (setReservation (Some normalized) s)))))
      | inl err =>
          setSeatSelectionUpdatedAt (JStr "")
            (setSelectedSeats []
               (setSeatMap JNull
                  (setReservation None
                     (setError
                        (errorMessage err
                           "Unable to retrieve the reservation at this time. Please try again later.")
                        s))))
      end in
    setLoading false s'.

Definition cancel (run : EffectRun) : EffectRun :=
  {| cancelled := true; request := request run; settled := settled run |}.

Definition settle (run : EffectRun) : EffectRun :=
  {| cancelled := cancelled run; request := request run; settled := true |}.

(** The cleanup returned by the latest effect run sets that run's flag. *)
Fixpoint cancelLast (runs : list EffectRun) : list EffectRun :=
  match runs with
  | [] => []
  | [run] => [cancel run]
  | run :: rest => run :: cancelLast rest
  end.

Definition cleanup (w : World) : World :=
  withEffects (cancelLast (effects w)) w.

Fixpoint settleNth (i : nat) (runs : list EffectRun) : list EffectRun :=
  match runs, i with
  | [], _ => []
  | run :: rest, O => settle run :: rest
  | run :: rest, S j => run :: settleNth j rest
  end.

Definition isSome {A : Type} (o : option A) : bool :=
  match o with
  | Some _ => true
  | None => false
  end.

(** The body of the effect, up to the [await] inside [loadReservation]. *)
Definition runEffect (w : World) : World :=
  let s := state w in
  if String.eqb (reservationId w) "" then
    withEffects
      (effects w ++ [{| cancelled := false; request := None; settled := false |}])
      (withState (setLoading false s) w)
  else
    let hasInitialPreload :=
      isSome (preloadedReservation w) && Nat.eqb (refreshCount s) 0 in
    let s1 :=
      match preloadedReservation w with
      | Some preloaded =>
          if hasInitialPreload then showReservation preloaded s else s
      | None => s
      end in
    let s2 :=
      setLoading (negb hasInitialPreload || Nat.ltb 0 (refreshCount s)) s1 in
    let s3 := setError "" s2 in
    withEffects
      (effects w
         ++ [{| cancelled := false; request := Some (reservationId w);
                settled := false |}])
      (withState s3 w).

(** [location.state?.reservation], kept when its [reservationId] is the
    route's. *)
Definition preloadedFor (reservationId : string)
    (locationReservation : option ApiClient.Reservation)
    : option ApiClient.Reservation :=
  match locationReservation with
  | Some r =>
      match ApiClient.reservationId r with
      | JStr id => if String.eqb id reservationId then Some r else None
      | _ => None
      end
  | None => None
  end.

(** The [useState] initial values. *)
Definition initialState (reservationId : string)
    (preloaded : option ApiClient.Reservation) : State :=
  {| reservation := preloaded;
     loading := negb (isSome preloaded);
     error :=
       if String.eqb reservationId "" then "Reservation ID missing from the link."
       else "";
     refreshCount := 0;
     seatMap :=
       match preloaded with
       | Some r => ApiClient.seatMap r
       | None => JUndefined
       end ?? JNull;
     selectedSeats :=
       match preloaded with
       | Some r => seatsOf r []
       | None => []
       end;
     seatSelectionUpdatedAt :=
       match preloaded with
       | Some r => updatedAtOf r
       | None => JStr ""
       end;
     seatSyncError := "";
     isSyncingSeats := false;
     isSeatModalOpen := false |}.

(** The first render and the first run of the effect. *)
Definition mount (reservationId : string)
    (locationReservation : option ApiClient.Reservation) : World :=
  let preloaded := preloadedFor reservationId locationReservation in
  runEffect
    {| reservationId := reservationId;
       preloadedReservation := preloaded;
       state := initialState reservationId preloaded;
       effects := [];
       pendingConfirm := [];
       patchLog := [] |}.

(** What happens to the mounted page: UI events, route changes that re-run
    the effect, and requests that settle. *)
Inductive Event : Type :=
| Toggle (seatId : string)
| Confirm (seatIds : option (list string))
| ConfirmSettled (k : nat) (http : ApiClient.HttpOutcome)
| OpenSeatModal
| CloseSeatModal
| Retry
| Navigate (reservationId : string)
    (locationReservation : option ApiClient.Reservation)
| Unmount
| LoadSettled (i : nat) (http : ApiClient.HttpOutcome).

Definition removeNth {A : Type} (k : nat) (l : list A) : list A :=
  firstn k l ++ skipn (S k) l.

Definition confirmSettled (k : nat) (http : ApiClient.HttpOutcome) (w : World)
    : World :=
  match nth_error (pendingConfirm w) k with
  | Some call =>
      withPendingConfirm (removeNth k (pendingConfirm w))
        (withState
           (handleSeatConfirm_settle call
              (ApiClient.updateReservationSeatSelection_settle http)
              (state w))
           w)
  | None => w
  end.

Definition loadSettled (i : nat) (http : ApiClient.HttpOutcome) (w : World)
    : World :=
  match nth_error (effects w) i with
  | Some run =>
      match request run with
      | Some id =>
          if settled run then w
          else
            withEffects (settleNth i (effects w))
              (withState
                 (loadReservation_settle (cancelled run)
                    (ApiClient.fetchReservationById id http) (state w))
                 w)
      | None => w
      end
  | None => w
  end.

Definition step (w : World) (e : Event) : World :=
  match e with
  | Toggle seatId => withState (handleSeatToggle seatId (state w)) w
  | Confirm seatIds => handleSeatConfirm seatIds w
  | ConfirmSettled k http => confirmSettled k http w
  | OpenSeatModal => withState (handleOpenSeatModal (state w)) w
  | CloseSeatModal => withState (handleCloseSeatModal (state w)) w
  | Retry =>
      runEffect
        (cleanup
           (withState (setRefreshCount (S (refreshCount (state w))) (state w)) w))
  | Navigate id locationReservation =>
      runEffect
        (cleanup
           {| reservationId := id;
              preloadedReservation := preloadedFor id locationReservation;
              state := state w; effects := effects w;
              pendingConfirm := pendingConfirm w; patchLog := patchLog w |})
  | Unmount => cleanup w
  | LoadSettled i http => loadSettled i http w
  end.

Definition run (w : World) (events : list Event) : World :=
  fold_left step events w.

(** The worlds the page can be in. *)
Inductive reachable : World -> Prop :=
| reachable_mount (reservationId : string)
    (locationReservation : option ApiClient.Reservation) :
    reachable (mount reservationId locationReservation)
| reachable_step (w : World) (e : Event) :
    reachable w -> reachable (step w e).

(** [formatOffsetLabel(offsetMinutes)] *)
Definition formatOffsetLabel (offsetMinutes : Z) : string :=
  if Z.eqb offsetMinutes 0 then "UTC"
  else
    let sign := if (offsetMinutes >? 0)%Z then "+" else "-" in
    let absolute := Z.abs offsetMinutes in
    let hours := padStart2 (numToString (absolute / 60)) in
    let minutes := padStart2 (numToString (absolute mod 60)) in
    "UTC" ++ sign ++ hours ++ ":" ++ minutes.

Definition digitValue (c : ascii) : option Z :=
  let n := nat_of_ascii c in
  if ((48 <=? n) && (n <=? 57))%nat then Some (Z.of_nat (n - 48)) else None.

(** The offset arithmetic of [getLocalDateWithOffset], on the offset its
    regular expression captures ([Z], or a sign, two digits, a colon and two
    digits); [None] for any other string, which the expression does not
    match. *)
Definition offsetMinutesOf (offset : string) : option Z :=
  if String.eqb offset "Z" then Some 0%Z
  else
    match offset with
    | String s (String h1 (String h2 (String c (String m1 (String m2 EmptyString))))) =>
        if (Ascii.eqb s "+" || Ascii.eqb s "-") && Ascii.eqb c ":" then
          match digitValue h1, digitValue h2, digitValue m1, digitValue m2 with
          | Some a, Some b, Some d, Some e =>
              let sign := if Ascii.eqb s "-" then (-1)%Z else 1%Z in
              let hours := (10 * a + b)%Z in
              let minutes := (10 * d + e)%Z in
              Some (sign * (hours * 60 + minutes))%Z
          | _, _, _, _ => None
          end
        else None
    | _ => None
    end.

(** [selectedSeatChips] *)
Definition selectedSeatChips (s : State) : list string :=
  match selectedSeats s with
  | [] => []
  | seats => sort seats
  end.

End Page.

(** * Properties *)

Import Js.

(** A seat list in the gateway's normal form: no duplicates, and every
    identifier non-empty, trimmed and in upper case. *)
Definition normalSeatId (s : string) : Prop :=
  s <> "" /\ trim s = s /\ toUpperCase s = s.

Definition normalSeatList (l : list string) : Prop :=
  NoDup l /\ Forall normalSeatId l.

(** At most one call of [handleSeatConfirm] waits for its request, and
    [isSyncingSeats] says whether one does. *)
Definition oneConfirmInFlight (w : Page.World) : Prop :=
  (Page.isSyncingSeats (Page.state w) = true
   /\ List.length (Page.pendingConfirm w) = 1%nat)
  \/ (Page.isSyncingSeats (Page.state w) = false
      /\ Page.pendingConfirm w = []).

(** Every effect run but the latest has its [cancelled] flag set. *)
Definition supersededCancelled (runs : list Page.EffectRun) : Prop :=
  Forall (fun run => Page.cancelled run = true) (removelast runs).

Definition flagged (run : Page.EffectRun) : Prop := Page.cancelled run = true.

(** What a call of [handleSeatConfirm] that passes the guards keeps across
    its [await], for the reservation [r] it sees. *)
Definition callOf (r : ApiClient.Reservation) (seatIds : option (list string))
    (w : Page.World) : Page.ConfirmCall :=
  {| Page.trimmedSeats :=
       Page.trimSeats (Page.maxSelectable r)
         (Page.seatsToPersist seatIds (Page.state w));
     Page.previousServerSeats := Page.seatsOf r [] |}.

(** Events other than the settling of a seat update. *)
Definition notConfirmSettled (e : Page.Event) : Prop :=
  match e with
  | Page.ConfirmSettled _ _ => False
  | _ => True
  end.

(** ** Sample data *)

(** A successful response: reservation R1 for two passengers, seat 1A
    confirmed. *)
Definition sampleEnvelope : JsVal :=
  JObj
    [("ok", JBool true);
     ("reservation",
      JObj [("reservation_id", JStr "R1"); ("passenger_count", JNum 2);
            ("passengers", JArr [JStr "Ann"; JStr "Bob"])]);
     ("seat_selection",
      JObj [("selected_seats", JArr [JStr "1A"]); ("updated_at", JStr "t0")]);
     ("seat_map", JObj [("sections", JArr [])])].

(** The same reservation for one passenger, nothing confirmed. *)
Definition singleEnvelope : JsVal :=
  JObj
    [("ok", JBool true);
     ("reservation",
      JObj [("reservation_id", JStr "R1"); ("passenger_count", JNum 1)]);
     ("seat_selection", JObj [("selected_seats", JArr [])]);
     ("seat_map", JObj [("sections", JArr [])])].

(** The answer to a seat update: the server keeps 1A only and stamps the
    selection anew. *)
Definition updatedEnvelope : JsVal :=
  JObj
    [("ok", JBool true);
     ("reservation",
      JObj [("reservation_id", JStr "R1"); ("passenger_count", JNum 2);
            ("passengers", JArr [JStr "Ann"; JStr "Bob"])]);
     ("seat_selection",
      JObj [("selected_seats", JArr [JStr "1A"]); ("updated_at", JStr "t1")]);
     ("seat_map", JObj [("sections", JArr [])])].


(** A response that is not ok and carries an empty message. *)
Definition silentFailureEnvelope : JsVal :=
  JObj [("ok", JBool false); ("message", JStr "")].

(** A request that never got a response. *)
Definition networkError : ApiClient.JsError :=
  {| ApiClient.message := Some "Network Error";
     ApiClient.code := JStr "ERR_NETWORK";
     ApiClient.status := None;
     ApiClient.envelope := JUndefined |}.

(** The page on /reservation/R1 once its first load has succeeded. *)
Definition loadedWorld : Page.World :=
  Page.run (Page.mount "R1" None)
    [Page.LoadSettled 0 (ApiClient.Responded sampleEnvelope)].

Definition singleWorld : Page.World :=
  Page.run (Page.mount "R1" None)
    [Page.LoadSettled 0 (ApiClient.Responded singleEnvelope)].

Definition sampleProps : SeatMapWidget.Props :=
  {| SeatMapWidget.selectedSeats := ["2b"; "1A"];
     SeatMapWidget.onSeatToggle := true;
     SeatMapWidget.onConfirmSelection := true;
     SeatMapWidget.isSyncing := false |}.

(** The user adds seat 2B to the confirmed 1A. *)
Definition unsavedWorld : Page.World :=
  Page.run loadedWorld [Page.Toggle "2b"].

(** The user confirms both seats and the request fails. *)
Definition rejectedWorld : Page.World :=
  Page.run unsavedWorld
    [Page.Confirm (Some ["1A"; "2B"]);
     Page.ConfirmSettled 0 (ApiClient.Failed networkError)].

(** The user asks for a reload while the first load is still out. *)
Definition reloadingWorld : Page.World :=
  Page.run (Page.mount "R1" None) [Page.Retry].

(** [partOf u v]: the value [u] occurs in the JSON value [v]. *)
Inductive partOf (u : JsVal) : JsVal -> Prop :=
| partOf_self : partOf u u
| partOf_item (x : JsVal) (items : list JsVal) :
    In x items -> partOf u x -> partOf u (JArr items)
| partOf_field (k : string) (x : JsVal) (fields : list (string * JsVal)) :
    In (k, x) fields -> partOf u x -> partOf u (JObj fields).

(** What [collectReservationsDeep] keeps true of [results] and [seen] while
    it walks [root]: [seen] holds the ids of [results], the ids are distinct,
    and every result is the normal form of an envelope of [root]. *)
Definition collected (root : JsVal)
    (acc : list ApiClient.Reservation * list string) : Prop :=
  (forall id, In id (snd acc) <->
              In (JStr id) (map ApiClient.reservationId (fst acc)))
  /\ NoDup (map ApiClient.reservationId (fst acc))
  /\ (forall r, In r (fst acc) ->
        exists u, partOf u root
                  /\ ApiClient.looksLikeReservationEnvelope u = true
                  /\ r = ApiClient.normalizeReservationPayload u).

(** What [collectReservationsDeep] does at an object before it walks the
    fields. *)
Definition visitEnvelope (value : JsVal)
    (acc : list ApiClient.Reservation * list string)
    : list ApiClient.Reservation * list string :=
  if ApiClient.looksLikeReservationEnvelope value then
    match ApiClient.reservationId (ApiClient.normalizeReservationPayload value) with
    | JStr id =>
        if includes (snd acc) id then acc
        else ((fst acc ++ [ApiClient.normalizeReservationPayload value])%list,
              id :: snd acc)
    | _ => acc
    end
  else acc.

(** The walk from [acc] to [acc']: the invariant is kept, results are only
    appended, and every envelope among the values [covered] has its id in the
    results. *)
Definition walked (root : JsVal) (covered : JsVal -> Prop)
    (acc acc' : list ApiClient.Reservation * list string) : Prop :=
  collected root acc'
  /\ (exists extra, fst acc' = (fst acc ++ extra)%list)
  /\ (forall u, covered u ->
        ApiClient.looksLikeReservationEnvelope u = true ->
        In (ApiClient.reservationId (ApiClient.normalizeReservationPayload u))
          (map ApiClient.reservationId (fst acc'))).

Definition collectsWell (v : JsVal) : Prop :=
  forall root acc,
    partOf v root -> collected root acc ->
    walked root (fun u => partOf u v) acc (ApiClient.collectReservationsDeep v acc).




(** The selection a reservation record holds is in normal form. *)
Definition normalReservation (r : ApiClient.Reservation) : Prop :=
  normalSeatList (Page.seatsOf r []).

Definition normalPreload (preloaded : option ApiClient.Reservation) : Prop :=
  match preloaded with
  | Some r => normalReservation r
  | None => True
  end.

(** An event that brings no reservation from outside, or one in normal
    form. *)
Definition normalEvent (e : Page.Event) : Prop :=
  match e with
  | Page.Navigate _ locationReservation => normalPreload locationReservation
  | _ => True
  end.

(** Every seat list the page holds is in normal form: the selection, the
    reservation's, the preloaded reservation's, and what the pending calls
    would roll back to. *)
Definition selectionNormal (w : Page.World) : Prop :=
  normalSeatList (Page.selectedSeats (Page.state w))
  /\ normalPreload (Page.reservation (Page.state w))
  /\ normalPreload (Page.preloadedReservation w)
  /\ Forall (fun call => normalSeatList (Page.previousServerSeats call))
       (Page.pendingConfirm w).

(** The request a call of [handleSeatConfirm] sends for the reservation [r]
    it sees. *)
Definition requestOf (r : ApiClient.Reservation)
    (seatIds : option (list string)) (w : Page.World) : ApiClient.PatchRequest :=
  {| ApiClient.patchReservationId := Page.reservationId w;
     ApiClient.selected_seats :=
       ApiClient.normalizeSeatList
         (map JStr
            (Page.trimSeats (Page.maxSelectable r)
               (Page.seatsToPersist seatIds (Page.state w)))) |}.


(** The body of a refusal whose detail is a plain string. *)
Definition refusedBody : JsVal :=
  JObj [("detail", JStr "Not Found"); ("message", JStr "ignored")].

(** A chat payload with its text under [response]. *)
Definition responseFields : list (string * JsVal) :=
  [("response", JObj [("text", JStr "Hello there")])].

(** The first run of the effect on /reservation/R1, its load still out. *)
Definition firstRun : Page.EffectRun :=
  {| Page.cancelled := false; Page.request := Some "R1";
     Page.settled := false |}.

(** Load, add a seat, confirm, and the request fails. *)
Definition sampleEvents : list Page.Event :=
  [Page.LoadSettled 0 (ApiClient.Responded sampleEnvelope);
   Page.Toggle "2b";
   Page.Confirm None;
   Page.ConfirmSettled 0 (ApiClient.Failed networkError)].

(** A chat response that names reservation R1 twice and R2 once. *)
Definition chatPayload : JsVal :=
  JArr
    [JObj
       [("content",
         JObj
           [("parts",
             JArr
               [JObj [("text", JStr " Your booking is confirmed. ")];
                JObj
                  [("functionResponse",
                    JObj
                      [("response",
                        JObj
                          [("reservation",
                            JObj [("reservation_id", JStr "R1")]);
                           ("seat_selection",
                            JObj [("selected_seats", JArr [JStr "1a"])])])])]])])];
     JObj
       [("first",
         JObj [("reservation", JObj [("reservation_id", JStr "R2")])]);
        ("second",
         JObj
           [("reservation", JObj [("reservation_id", JStr "R1")]);
            ("seat_selection", JObj [("selected_seats", JArr [JStr "9z"])])])];
     JObj [("text", JStr "OK_42")]].

(** From [H : a = b], conclude [a' = b'] when [a'] computes to what [a]
    computes to, and [b] to what [b'] does. *)
Ltac conclude H :=
  refine (eq_trans _ (eq_trans H _)); vm_compute; reflexivity.

(** ** Strings *)

Section Strings.

Lemma isWhiteSpace_upperChar (c : ascii) :
  isWhiteSpace (upperChar c) = isWhiteSpace c.
Proof.
  destruct c as [[] [] [] [] [] [] [] []]; reflexivity.
Qed.

Lemma upperChar_idem (c : ascii) : upperChar (upperChar c) = upperChar c.
Proof.
  destruct c as [[] [] [] [] [] [] [] []]; reflexivity.
Qed.

Lemma toUpperCase_idem (s : string) :
  toUpperCase (toUpperCase s) = toUpperCase s.
Proof.
  induction s as [|c s IH]; simpl; [reflexivity|].
  now rewrite upperChar_idem, IH.
Qed.

Lemma trimStart_toUpperCase (s : string) :
  trimStart (toUpperCase s) = toUpperCase (trimStart s).
Proof.
  induction s as [|c s IH]; simpl; [reflexivity|].
  rewrite isWhiteSpace_upperChar.
  destruct (isWhiteSpace c); [exact IH | reflexivity].
Qed.

Lemma toUpperCase_empty (s : string) : toUpperCase s = "" -> s = "".
Proof. destruct s; simpl; [reflexivity | discriminate]. Qed.

Lemma trimEnd_toUpperCase (s : string) :
  trimEnd (toUpperCase s) = toUpperCase (trimEnd s).
Proof.
  induction s as [|c s IH]; simpl; [reflexivity|].
  rewrite IH, isWhiteSpace_upperChar.
  destruct (trimEnd s) as [|d kept]; simpl.
  - destruct (isWhiteSpace c); reflexivity.
  - reflexivity.
Qed.

Lemma trim_toUpperCase (s : string) :
  trim (toUpperCase s) = toUpperCase (trim s).
Proof.
  unfold trim. now rewrite trimStart_toUpperCase, trimEnd_toUpperCase.
Qed.

Lemma trimEnd_idem (s : string) : trimEnd (trimEnd s) = trimEnd s.
Proof.
  induction s as [|c s IH]; simpl; [reflexivity|].
  destruct (trimEnd s) as [|d kept] eqn:E.
  - destruct (isWhiteSpace c) eqn:W; simpl; [reflexivity|].
    now rewrite W.
  - change (trimEnd (String c (String d kept)))
      with (match trimEnd (String d kept) with
            | EmptyString =>
                if isWhiteSpace c then EmptyString else String c EmptyString
            | kept' => String c kept'
            end).
    rewrite IH. reflexivity.
Qed.

(** What [trimStart] returns does not start with white space. *)
Lemma trimStart_head (s : string) (c : ascii) (rest : string) :
  trimStart s = String c rest -> isWhiteSpace c = false.
Proof.
  induction s as [|d s IH]; simpl; [discriminate|].
  destruct (isWhiteSpace d) eqn:W; [exact IH|].
  intros H; injection H as -> _. exact W.
Qed.

Lemma trimStart_fixed (c : ascii) (rest : string) :
  isWhiteSpace c = false -> trimStart (trimEnd (String c rest)) = trimEnd (String c rest).
Proof.
  intros W. simpl.
  destruct (trimEnd rest); rewrite ?W; simpl; now rewrite W.
Qed.

Lemma trim_idem (s : string) : trim (trim s) = trim s.
Proof.
  unfold trim.
  destruct (trimStart s) as [|c rest] eqn:E; [reflexivity|].
  rewrite (trimStart_fixed c rest (trimStart_head s c rest E)).
  apply trimEnd_idem.
Qed.

Lemma trim_empty : trim "" = "".
Proof. reflexivity. Qed.

(** [x.trim().toUpperCase()] is trimmed and in upper case. *)
Lemma normalized_fixed (x : string) :
  trim (toUpperCase (trim x)) = toUpperCase (trim x)
  /\ toUpperCase (toUpperCase (trim x)) = toUpperCase (trim x).
Proof.
  split; [|apply toUpperCase_idem].
  now rewrite trim_toUpperCase, trim_idem.
Qed.

End Strings.

(** ** Sets and seat lists *)

Section SeatLists.

Lemma includes_In (l : list string) (x : string) :
  includes l x = true <-> In x l.
Proof.
  unfold includes. rewrite existsb_exists. split.
  - intros [y [Hy E]]. apply String.eqb_eq in E. now subst.
  - intros H. exists x. split; [exact H | apply String.eqb_refl].
Qed.

Lemma includes_not_In (l : list string) (x : string) :
  includes l x = false <-> ~ In x l.
Proof.
  rewrite <- includes_In. destruct (includes l x); split; congruence.
Qed.

Lemma setFrom_In (l seen : list string) (x : string) :
  In x (setFrom seen l) <-> In x l /\ ~ In x seen.
Proof.
  revert seen. induction l as [|y l IH]; intros seen; simpl.
  - tauto.
  - destruct (includes seen y) eqn:E.
    + apply includes_In in E. rewrite IH. split.
      * tauto.
      * intros [[->|H] N]; [contradiction | tauto].
    + apply includes_not_In in E. simpl. rewrite IH. simpl. split.
      * intros [->|[H N]]; [tauto|]. split; [tauto|]. intros H'. apply N. now right.
      * intros [[->|H] N]; [now left|].
        destruct (string_dec y x) as [->|D]; [now left|].
        right. split; [exact H|]. intros [F|F]; [exact (D F) | exact (N F)].
Qed.

Lemma setFrom_NoDup (l seen : list string) : NoDup (setFrom seen l).
Proof.
  revert seen. induction l as [|y l IH]; intros seen; simpl.
  - constructor.
  - destruct (includes seen y); [apply IH|].
    constructor; [|apply IH].
    rewrite setFrom_In. intros [_ N]. apply N. now left.
Qed.

Lemma arrayFromSet_In (l : list string) (x : string) :
  In x (arrayFromSet l) <-> In x l.
Proof. unfold arrayFromSet. rewrite setFrom_In. simpl. tauto. Qed.

Lemma arrayFromSet_NoDup (l : list string) : NoDup (arrayFromSet l).
Proof. apply setFrom_NoDup. Qed.

Lemma arrayFromSet_empty (l : list string) : arrayFromSet l = [] -> l = [].
Proof. destruct l; [reflexivity | discriminate]. Qed.

Lemma insertSorted_not_empty (x : string) (l : list string) :
  insertSorted x l <> [].
Proof. destruct l; simpl; [discriminate|]. destruct (String.leb x s); discriminate. Qed.

Lemma sort_empty (l : list string) : sort l = [] -> l = [].
Proof.
  destruct l as [|x l]; [reflexivity|]. simpl. intros H.
  now apply insertSorted_not_empty in H.
Qed.

Lemma nonEmpty_true (s : string) : ApiClient.nonEmpty s = true <-> s <> "".
Proof.
  unfold ApiClient.nonEmpty. rewrite negb_true_iff. apply String.eqb_neq.
Qed.

Lemma normalizeSeatId_fixed (v : JsVal) :
  trim (ApiClient.normalizeSeatId v) = ApiClient.normalizeSeatId v
  /\ toUpperCase (ApiClient.normalizeSeatId v) = ApiClient.normalizeSeatId v.
Proof. apply normalized_fixed. Qed.

(** Whatever the list, the gateway's pipeline ends in normal form. *)
Lemma normalizeSeatList_normal (seats : list JsVal) :
  normalSeatList (ApiClient.normalizeSeatList seats).
Proof.
  unfold ApiClient.normalizeSeatList. split; [apply arrayFromSet_NoDup|].
  apply Forall_forall. intros x Hx.
  apply arrayFromSet_In, filter_In in Hx. destruct Hx as [Hx Hn].
  apply in_map_iff in Hx. destruct Hx as [v [<- _]].
  split; [now apply nonEmpty_true | apply normalizeSeatId_fixed].
Qed.

(** On a list of strings the pipeline is trim, upper case, drop the empty
    results, first occurrences. *)
Lemma normalizeSeatList_strings (l : list string) :
  ApiClient.normalizeSeatList (map JStr l)
  = arrayFromSet
      (filter ApiClient.nonEmpty (map (fun x => toUpperCase (trim x)) l)).
Proof.
  unfold ApiClient.normalizeSeatList. f_equal. f_equal.
  induction l as [|x l IH]; simpl; [reflexivity|]. now rewrite IH.
Qed.

End SeatLists.

(** ** handleSeatToggle *)

Section Toggle.

Variable r : ApiClient.Reservation.

(** The three outcomes of a toggle that passes the guards. *)
Lemma handleSeatToggle_cases (seatId : string) (s : Page.State) :
  Page.reservation s = Some r ->
  let n := toUpperCase (trim seatId) in
  let s' := Page.handleSeatToggle seatId s in
  let prev := Page.selectedSeats s in
  s' = s
  \/ (In n prev /\ n <> ""
      /\ Page.selectedSeats s' = filter (fun seat => negb (String.eqb seat n)) prev
      /\ Page.seatSyncError s' = "")
  \/ (~ In n prev
      /\ (Z.of_nat (List.length prev) >= Page.maxSelectable r)%Z
      /\ Page.selectedSeats s' = prev
      /\ Page.seatSyncError s' = Page.limitMessage (Page.maxSelectable r))
  \/ (~ In n prev
      /\ (Z.of_nat (List.length prev) < Page.maxSelectable r)%Z
      /\ Page.selectedSeats s' = (prev ++ [n])%list
      /\ Page.seatSyncError s' = "").
Proof.
  intros Hr n s' prev. subst s'. unfold Page.handleSeatToggle. rewrite Hr.
  destruct (String.eqb seatId "" || Page.isSyncingSeats s); [now left|].
  fold n. destruct (String.eqb n "") eqn:En; [now left|].
  apply String.eqb_neq in En. right. fold prev.
  destruct (includes prev n) eqn:Ei.
  - left. apply includes_In in Ei. simpl. auto.
  - apply includes_not_In in Ei. right.
    destruct (Z.of_nat (List.length prev) >=? Page.maxSelectable r)%Z eqn:El.
    + left. simpl. repeat split; auto. lia.
    + right. simpl. repeat split; auto. lia.
Qed.

Lemma handleSeatToggle_reservation (seatId : string) (s : Page.State) :
  Page.reservation (Page.handleSeatToggle seatId s) = Page.reservation s.
Proof.
  unfold Page.handleSeatToggle.
  destruct (Page.reservation s) eqn:E; [|exact E].
  destruct (String.eqb seatId "" || Page.isSyncingSeats s); [exact E|].
  destruct (String.eqb (toUpperCase (trim seatId)) ""); [exact E|].
  destruct (includes (Page.selectedSeats s) (toUpperCase (trim seatId)));
    [exact E|].
  destruct (Z.of_nat (List.length (Page.selectedSeats s)) >=? _)%Z; exact E.
Qed.

(** A toggle never takes the selection above the larger of its size and the
    limit. *)
Lemma handleSeatToggle_length (seatId : string) (s : Page.State) :
  Page.reservation s = Some r ->
  (Z.of_nat (List.length (Page.selectedSeats (Page.handleSeatToggle seatId s)))
   <= Z.max (Z.of_nat (List.length (Page.selectedSeats s))) (Page.maxSelectable r))%Z.
Proof.
  intros Hr.
  destruct (handleSeatToggle_cases seatId s Hr)
    as [E|[(_ & _ & E & _)|[(_ & _ & E & _)|(_ & L & E & _)]]];
    rewrite E; try lia.
  - pose proof (filter_length_le
        (fun seat => negb (String.eqb seat (toUpperCase (trim seatId))))
        (Page.selectedSeats s)). lia.
  - rewrite length_app. simpl. lia.
Qed.

Lemma toggles_reservation (seatIds : list string) (s : Page.State) :
  Page.reservation
    (fold_left (fun st seatId => Page.handleSeatToggle seatId st) seatIds s)
  = Page.reservation s.
Proof.
  revert s. induction seatIds as [|x l IH]; intros s; simpl; [reflexivity|].
  now rewrite IH, handleSeatToggle_reservation.
Qed.

Lemma toggles_length (seatIds : list string) (s : Page.State) :
  Page.reservation s = Some r ->
  (Z.of_nat (List.length (Page.selectedSeats s)) <= Page.maxSelectable r)%Z ->
  (Z.of_nat
     (List.length
        (Page.selectedSeats
           (fold_left (fun st seatId => Page.handleSeatToggle seatId st) seatIds s)))
   <= Page.maxSelectable r)%Z.
Proof.
  revert s. induction seatIds as [|x l IH]; intros s Hr Hl; simpl; [exact Hl|].
  apply IH.
  - now rewrite handleSeatToggle_reservation.
  - pose proof (handleSeatToggle_length x s Hr). lia.
Qed.

Lemma toggles_length_max (seatIds : list string) (s : Page.State) :
  Page.reservation s = Some r ->
  (Z.of_nat
     (List.length
        (Page.selectedSeats
           (fold_left (fun st seatId => Page.handleSeatToggle seatId st) seatIds s)))
   <= Z.max (Z.of_nat (List.length (Page.selectedSeats s))) (Page.maxSelectable r))%Z.
Proof.
  revert s. induction seatIds as [|x l IH]; intros s Hr; simpl; [lia|].
  assert (Hr' : Page.reservation (Page.handleSeatToggle x s) = Some r)
    by now rewrite handleSeatToggle_reservation.
  pose proof (IH _ Hr'). pose proof (handleSeatToggle_length x s Hr). lia.
Qed.

End Toggle.

Lemma maxSelectable_count (r : ApiClient.Reservation) (P : Z) :
  ApiClient.passengerCount r = Some P -> Page.maxSelectable r = Z.max 1 P.
Proof. intros H. unfold Page.maxSelectable. now rewrite H. Qed.

(** C1. For a reservation with passenger count [P >= 1]: whatever the
    sequence of [handleSeatToggle] calls, a selection of at most [max(1, P)]
    seats stays at most that large, and no selection grows beyond the larger
    of its size and [max(1, P)]; and a toggle of a seat that is not selected,
    on a selection that has reached the limit, leaves the selection as it is
    and sets the message "You can select up to N seat(s).", "seat" for N = 1
    and "seats" otherwise. *)
Theorem toggleSeat_never_exceeds_limit
    (r : ApiClient.Reservation) (P : Z) (s : Page.State) :
  Page.reservation s = Some r ->
  ApiClient.passengerCount r = Some P ->
  (1 <= P)%Z ->
  (forall seatIds : list string,
      (Z.of_nat (List.length (Page.selectedSeats s)) <= Z.max 1 P)%Z ->
      (Z.of_nat
         (List.length
            (Page.selectedSeats
               (fold_left (fun st seatId => Page.handleSeatToggle seatId st)
                  seatIds s)))
       <= Z.max 1 P)%Z)
  /\ (forall seatIds : list string,
        (Z.of_nat
           (List.length
              (Page.selectedSeats
                 (fold_left (fun st seatId => Page.handleSeatToggle seatId st)
                    seatIds s)))
         <= Z.max (Z.of_nat (List.length (Page.selectedSeats s))) (Z.max 1 P))%Z)
  /\ (forall seatId : string,
         Page.isSyncingSeats s = false ->
         toUpperCase (trim seatId) <> "" ->
         ~ In (toUpperCase (trim seatId)) (Page.selectedSeats s) ->
         (Z.of_nat (List.length (Page.selectedSeats s)) >= Z.max 1 P)%Z ->
         Page.selectedSeats (Page.handleSeatToggle seatId s) = Page.selectedSeats s
         /\ Page.seatSyncError (Page.handleSeatToggle seatId s)
            = (if Z.eqb P 1 then "You can select up to 1 seat."
               else "You can select up to " ++ numToString P ++ " seats.")).
Proof.
  intros Hr HP H1.
  pose proof (maxSelectable_count r P HP) as HM. split; [|split].
  - intros seatIds Hl. rewrite <- HM.
    apply toggles_length; [exact Hr | now rewrite HM].
  - intros seatIds. rewrite <- HM. now apply toggles_length_max.
  - intros seatId Hsync Hn Hnot Hfull.
    assert (Hid : seatId <> "") by (intros ->; now apply Hn).
    unfold Page.handleSeatToggle. rewrite Hr, Hsync.
    apply String.eqb_neq in Hid. rewrite Hid. simpl.
    apply String.eqb_neq in Hn. rewrite Hn.
    apply includes_not_In in Hnot. rewrite Hnot. rewrite HM.
    assert (Hge : (Z.of_nat (List.length (Page.selectedSeats s)) >=? Z.max 1 P)%Z = true)
      by lia.
    rewrite Hge. simpl. split; [reflexivity|].
    unfold Page.limitMessage. replace (Z.max 1 P) with P by lia.
    destruct (Z.eqb P 1) eqn:E; [|reflexivity].
    apply Z.eqb_eq in E. subst P. reflexivity.
Qed.

(** C6. Toggling a seat whose normalized identifier is in the selection
    removes it and clears the seat error, and nothing else leaves the
    selection; the widget passes the click on such a seat to the page whatever
    the seat's status. *)
Theorem toggle_selected_seat_removes_it
    (r : ApiClient.Reservation) (s : Page.State) (seatId : string) :
  Page.reservation s = Some r ->
  Page.isSyncingSeats s = false ->
  toUpperCase (trim seatId) <> "" ->
  In (toUpperCase (trim seatId)) (Page.selectedSeats s) ->
  let s' := Page.handleSeatToggle seatId s in
  ~ In (toUpperCase (trim seatId)) (Page.selectedSeats s')
  /\ Page.seatSyncError s' = ""
  /\ (forall x, x <> toUpperCase (trim seatId) ->
        (In x (Page.selectedSeats s') <-> In x (Page.selectedSeats s)))
  /\ (forall (seat : SeatMapWidget.Seat) (showDialog : bool),
        In (toUpperCase (SeatMapWidget.id seat))
          (SeatMapWidget.selectedSeatIds (Page.seatMapProps s)) ->
        SeatMapWidget.click (Page.seatMapProps s) showDialog
          (SeatMapWidget.ClickSeat seat)
        = (showDialog,
           [SeatMapWidget.SeatToggle (toUpperCase (SeatMapWidget.id seat))])).
Proof.
  intros Hr Hsync Hn Hin s'.
  assert (Hid : seatId <> "") by (intros ->; now apply Hn).
  assert (Hsel :
    Page.selectedSeats s'
    = filter (fun seat => negb (String.eqb seat (toUpperCase (trim seatId))))
        (Page.selectedSeats s)
    /\ Page.seatSyncError s' = "").
  { subst s'. unfold Page.handleSeatToggle. rewrite Hr, Hsync.
    apply String.eqb_neq in Hid. rewrite Hid. simpl.
    apply String.eqb_neq in Hn. rewrite Hn.
    apply includes_In in Hin. rewrite Hin. simpl. auto. }
  destruct Hsel as [Hsel Herr]. rewrite Hsel.
  split; [|split; [exact Herr|split]].
  - rewrite filter_In. intros [_ F]. now rewrite String.eqb_refl in F.
  - intros x Hx. rewrite filter_In. apply String.eqb_neq in Hx. rewrite Hx.
    simpl. tauto.
  - intros seat showDialog Hseat. apply includes_In in Hseat.
    unfold SeatMapWidget.click, SeatMapWidget.seatDisabled,
      SeatMapWidget.handleSeatClick.
    rewrite Hseat. simpl. rewrite Hsync. simpl.
    now rewrite andb_false_r.
Qed.

(** ** The seat-map widget *)

Lemma sortedSelected_empty (p : SeatMapWidget.Props) :
  SeatMapWidget.sortedSelected p = [] <-> SeatMapWidget.selectedSeats p = [].
Proof.
  unfold SeatMapWidget.sortedSelected, SeatMapWidget.selectedSeatIds. split.
  - intros H. apply sort_empty, arrayFromSet_empty in H.
    now apply map_eq_nil in H.
  - intros ->. reflexivity.
Qed.

Lemma isEmpty_true (l : list string) :
  SeatMapWidget.isEmpty l = true <-> l = [].
Proof. destruct l; simpl; split; congruence. Qed.

(** C9. Every call of [onConfirmSelection] the widget makes carries a
    non-empty list, the sorted selection, and is made while no sync is in
    flight; with an empty selection, or during a sync, both confirm buttons
    are disabled. *)
Theorem widget_never_confirms_empty_selection
    (p : SeatMapWidget.Props) (showDialog : bool) (c : SeatMapWidget.Click)
    (seatIds : list string) :
  In (SeatMapWidget.ConfirmSelection seatIds)
    (snd (SeatMapWidget.click p showDialog c)) ->
  seatIds <> []
  /\ seatIds = SeatMapWidget.sortedSelected p
  /\ SeatMapWidget.selectedSeats p <> []
  /\ SeatMapWidget.isSyncing p = false
  /\ (forall q : SeatMapWidget.Props,
        SeatMapWidget.selectedSeats q = [] \/ SeatMapWidget.isSyncing q = true ->
        SeatMapWidget.footerConfirmDisabled q = true
        /\ SeatMapWidget.dialogConfirmDisabled q = true).
Proof.
  intros H.
  assert (Hq : forall q : SeatMapWidget.Props,
             SeatMapWidget.selectedSeats q = [] \/ SeatMapWidget.isSyncing q = true ->
             SeatMapWidget.footerConfirmDisabled q = true
             /\ SeatMapWidget.dialogConfirmDisabled q = true).
  { intros q [E|E]; unfold SeatMapWidget.footerConfirmDisabled,
      SeatMapWidget.dialogConfirmDisabled.
    - apply sortedSelected_empty in E. rewrite E. simpl.
      now rewrite orb_true_r.
    - rewrite E. simpl. now rewrite orb_true_r. }
  destruct c as [seat| | |]; simpl in H.
  - destruct (SeatMapWidget.seatDisabled p seat); simpl in H; [contradiction|].
    unfold SeatMapWidget.handleSeatClick in H.
    destruct (SeatMapWidget.isSyncing p || negb (SeatMapWidget.onSeatToggle p));
      simpl in H; [contradiction|].
    destruct (negb (String.eqb (SeatMapWidget.status seat) "available")
              && negb (includes (SeatMapWidget.selectedSeatIds p)
                         (toUpperCase (SeatMapWidget.id seat))));
      simpl in H; [contradiction|].
    destruct H as [H|[]]. discriminate H.
  - destruct (negb (SeatMapWidget.onConfirmSelection p)
              || SeatMapWidget.footerConfirmDisabled p); simpl in H; contradiction.
  - destruct (negb showDialog) eqn:Ed; simpl in H; [contradiction|].
    unfold SeatMapWidget.dialogConfirmDisabled in H.
    destruct (SeatMapWidget.isEmpty (SeatMapWidget.sortedSelected p)) eqn:Ee;
      simpl in H; [contradiction|].
    destruct (SeatMapWidget.isSyncing p) eqn:Es; simpl in H; [contradiction|].
    unfold SeatMapWidget.handleConfirmDialog in H.
    destruct (SeatMapWidget.onConfirmSelection p); simpl in H; [|contradiction].
    destruct H as [H|[]]. injection H as <-.
    assert (Hne : SeatMapWidget.sortedSelected p <> []).
    { intros F. apply isEmpty_true in F. congruence. }
    split; [exact Hne|]. split; [reflexivity|].
    split; [|split; [reflexivity | exact Hq]].
    intros F. apply Hne. now apply sortedSelected_empty.
  - destruct (negb showDialog || SeatMapWidget.isSyncing p); simpl in H;
      contradiction.
Qed.

(** ** handleSeatConfirm and the sync guard *)

Section Confirm.

Lemma handleSeatToggle_syncing (seatId : string) (s : Page.State) :
  Page.isSyncingSeats (Page.handleSeatToggle seatId s) = Page.isSyncingSeats s.
Proof.
  unfold Page.handleSeatToggle.
  destruct (Page.reservation s); [|reflexivity].
  destruct (String.eqb seatId "" || Page.isSyncingSeats s); [reflexivity|].
  destruct (String.eqb (toUpperCase (trim seatId)) ""); [reflexivity|].
  destruct (includes (Page.selectedSeats s) (toUpperCase (trim seatId)));
    [reflexivity|].
  destruct (Z.of_nat (List.length (Page.selectedSeats s)) >=? _)%Z; reflexivity.
Qed.

Lemma handleSeatToggle_while_syncing (seatId : string) (s : Page.State) :
  Page.isSyncingSeats s = true -> Page.handleSeatToggle seatId s = s.
Proof.
  intros H. unfold Page.handleSeatToggle. rewrite H, orb_true_r.
  now destruct (Page.reservation s).
Qed.

Lemma loadReservation_settle_syncing (cancelled : bool)
    (result : ApiClient.JsError + (ApiClient.Reservation * JsVal))
    (s : Page.State) :
  Page.isSyncingSeats (Page.loadReservation_settle cancelled result s)
  = Page.isSyncingSeats s.
Proof.
  unfold Page.loadReservation_settle.
  destruct cancelled; [reflexivity|]. destruct result as [err|[n e]]; reflexivity.
Qed.

Lemma runEffect_confirm (w : Page.World) :
  Page.isSyncingSeats (Page.state (Page.runEffect w))
  = Page.isSyncingSeats (Page.state w)
  /\ Page.pendingConfirm (Page.runEffect w) = Page.pendingConfirm w
  /\ Page.patchLog (Page.runEffect w) = Page.patchLog w.
Proof.
  unfold Page.runEffect.
  destruct (String.eqb (Page.reservationId w) ""); simpl; [auto|].
  destruct (Page.preloadedReservation w); simpl; [|auto].
  destruct (Nat.eqb (Page.refreshCount (Page.state w)) 0); simpl; auto.
Qed.

Lemma loadSettled_confirm (i : nat) (http : ApiClient.HttpOutcome)
    (w : Page.World) :
  Page.isSyncingSeats (Page.state (Page.loadSettled i http w))
  = Page.isSyncingSeats (Page.state w)
  /\ Page.pendingConfirm (Page.loadSettled i http w) = Page.pendingConfirm w
  /\ Page.patchLog (Page.loadSettled i http w) = Page.patchLog w.
Proof.
  unfold Page.loadSettled.
  destruct (nth_error (Page.effects w) i) as [run|]; [|auto].
  destruct (Page.request run); [|auto].
  destruct (Page.settled run); [auto|]. simpl.
  rewrite loadReservation_settle_syncing. auto.
Qed.

(** A call of [handleSeatConfirm] that passes the guards sends one request
    and waits. *)
Lemma handleSeatConfirm_accepted (seatIds : option (list string))
    (w : Page.World) (r : ApiClient.Reservation) :
  Page.reservation (Page.state w) = Some r ->
  Page.reservationId w <> "" ->
  Page.isSyncingSeats (Page.state w) = false ->
  let trimmed :=
    Page.trimSeats (Page.maxSelectable r)
      (Page.seatsToPersist seatIds (Page.state w)) in
  Page.handleSeatConfirm seatIds w
  = Page.withPatchLog
      (Page.patchLog w
         ++ [{| ApiClient.patchReservationId := Page.reservationId w;
                ApiClient.selected_seats :=
                  ApiClient.normalizeSeatList (map JStr trimmed) |}])
      (Page.withPendingConfirm
         (Page.pendingConfirm w
            ++ [{| Page.trimmedSeats := trimmed;
                   Page.previousServerSeats := Page.seatsOf r [] |}])
         (Page.withState
            (Page.setSeatSyncError ""
               (Page.setIsSyncingSeats true (Page.state w))) w)).
Proof.
  intros Hr Hid Hsync trimmed. unfold Page.handleSeatConfirm.
  rewrite Hr, Hsync. apply String.eqb_neq in Hid. rewrite Hid.
  unfold ApiClient.updateReservationSeatSelection_request. rewrite Hid.
  reflexivity.
Qed.

(** A call that fails a guard sends nothing and leaves the sync state. *)
Lemma handleSeatConfirm_refused (seatIds : option (list string))
    (w : Page.World) :
  Page.reservation (Page.state w) = None
  \/ Page.reservationId w = ""
  \/ Page.isSyncingSeats (Page.state w) = true ->
  Page.isSyncingSeats (Page.state (Page.handleSeatConfirm seatIds w))
  = Page.isSyncingSeats (Page.state w)
  /\ Page.pendingConfirm (Page.handleSeatConfirm seatIds w) = Page.pendingConfirm w
  /\ Page.patchLog (Page.handleSeatConfirm seatIds w) = Page.patchLog w.
Proof.
  intros H. unfold Page.handleSeatConfirm.
  destruct (Page.reservation (Page.state w)) as [r|] eqn:Hr; [|simpl; auto].
  destruct (String.eqb (Page.reservationId w) "") eqn:Hid; [simpl; auto|].
  destruct (Page.isSyncingSeats (Page.state w)) eqn:Hs; [auto|].
  apply String.eqb_neq in Hid.
  destruct H as [H|[H|H]]; [discriminate | contradiction | discriminate].
Qed.

Lemma handleSeatConfirm_guards (w : Page.World) :
  (exists r, Page.reservation (Page.state w) = Some r
             /\ Page.reservationId w <> ""
             /\ Page.isSyncingSeats (Page.state w) = false)
  \/ (Page.reservation (Page.state w) = None
      \/ Page.reservationId w = ""
      \/ Page.isSyncingSeats (Page.state w) = true).
Proof.
  destruct (Page.reservation (Page.state w)) as [r|]; [|now right; left].
  destruct (string_dec (Page.reservationId w) "") as [E|E];
    [now right; right; left|].
  destruct (Page.isSyncingSeats (Page.state w)) eqn:Hs;
    [now right; right; right|].
  left. exists r. auto.
Qed.

(** Only the settling of the seat update ends a sync. *)
Lemma step_keeps_sync (w : Page.World) (e : Page.Event) :
  notConfirmSettled e ->
  Page.isSyncingSeats (Page.state w) = true ->
  Page.isSyncingSeats (Page.state (Page.step w e)) = true
  /\ Page.pendingConfirm (Page.step w e) = Page.pendingConfirm w
  /\ Page.patchLog (Page.step w e) = Page.patchLog w.
Proof.
  intros He Hs. destruct e; simpl in *; try contradiction.
  - rewrite handleSeatToggle_syncing. auto.
  - destruct (handleSeatConfirm_refused seatIds w) as (A & B & C); [auto|].
    rewrite A. auto.
  - unfold Page.handleOpenSeatModal.
    destruct (negb (truthy (Page.seatMap (Page.state w)))); simpl; auto.
  - auto.
  - destruct (runEffect_confirm
        (Page.cleanup
           (Page.withState
              (Page.setRefreshCount (S (Page.refreshCount (Page.state w)))
                 (Page.state w)) w))) as (A & B & C).
    rewrite A, B, C. simpl. auto.
  - match goal with |- context [Page.runEffect ?x] =>
      destruct (runEffect_confirm x) as (A & B & C) end.
    rewrite A, B, C. simpl. auto.
  - auto.
  - destruct (loadSettled_confirm i http w) as (A & B & C).
    rewrite A, B, C. auto.
Qed.

Lemma run_keeps_sync (events : list Page.Event) (w : Page.World) :
  Forall notConfirmSettled events ->
  Page.isSyncingSeats (Page.state w) = true ->
  Page.isSyncingSeats (Page.state (Page.run w events)) = true
  /\ Page.pendingConfirm (Page.run w events) = Page.pendingConfirm w
  /\ Page.patchLog (Page.run w events) = Page.patchLog w.
Proof.
  revert w. induction events as [|e l IH]; intros w Hall Hs; [simpl; auto|].
  inversion Hall as [|? ? He Hl]; subst.
  destruct (step_keeps_sync w e He Hs) as (A & B & C).
  destruct (IH (Page.step w e) Hl A) as (A' & B' & C').
  unfold Page.run in *. simpl. rewrite B', C'. auto.
Qed.

Lemma mount_oneConfirmInFlight (reservationId : string)
    (locationReservation : option ApiClient.Reservation) :
  oneConfirmInFlight (Page.mount reservationId locationReservation).
Proof.
  right. unfold Page.mount.
  match goal with |- context [Page.runEffect ?x] =>
    destruct (runEffect_confirm x) as (A & B & _) end.
  rewrite A, B. auto.
Qed.

Lemma step_oneConfirmInFlight (w : Page.World) (e : Page.Event) :
  oneConfirmInFlight w -> oneConfirmInFlight (Page.step w e).
Proof.
  intros Inv.
  assert (Keep :
    Page.isSyncingSeats (Page.state (Page.step w e))
    = Page.isSyncingSeats (Page.state w)
    /\ Page.pendingConfirm (Page.step w e) = Page.pendingConfirm w ->
    oneConfirmInFlight (Page.step w e)).
  { intros [A B]. unfold oneConfirmInFlight. now rewrite A, B. }
  destruct e; simpl.
  - apply Keep. simpl. now rewrite handleSeatToggle_syncing.
  - destruct (handleSeatConfirm_guards w) as [(r & Hr & Hid & Hs)|G].
    + rewrite (handleSeatConfirm_accepted seatIds w r Hr Hid Hs).
      left. simpl. split; [reflexivity|].
      destruct Inv as [[F _]|[_ E]]; [congruence|]. now rewrite E.
    + apply Keep. simpl.
      destruct (handleSeatConfirm_refused seatIds w G) as (A & B & _). auto.
  - unfold Page.confirmSettled.
    destruct (nth_error (Page.pendingConfirm w) k) as [call|] eqn:En;
      [|exact Inv].
    right. simpl. split; [reflexivity|].
    destruct Inv as [[_ L]|[_ E]].
    + destruct (Page.pendingConfirm w) as [|c [|c' l]]; try discriminate.
      destruct k as [|[|k]]; try discriminate. reflexivity.
    + rewrite E in En. destruct k; discriminate.
  - apply Keep. simpl. unfold Page.handleOpenSeatModal.
    destruct (negb (truthy (Page.seatMap (Page.state w)))); auto.
  - apply Keep. auto.
  - apply Keep. simpl.
    match goal with |- context [Page.runEffect ?x] =>
      destruct (runEffect_confirm x) as (A & B & _) end.
    rewrite A, B. auto.
  - apply Keep. simpl.
    match goal with |- context [Page.runEffect ?x] =>
      destruct (runEffect_confirm x) as (A & B & _) end.
    rewrite A, B. auto.
  - apply Keep. auto.
  - apply Keep. simpl.
    destruct (loadSettled_confirm i http w) as (A & B & _). auto.
Qed.

Lemma reachable_oneConfirmInFlight (w : Page.World) :
  Page.reachable w -> oneConfirmInFlight w.
Proof.
  induction 1 as [id loc|w e _ IH].
  - apply mount_oneConfirmInFlight.
  - now apply step_oneConfirmInFlight.
Qed.

End Confirm.

Lemma setFrom_length (l seen : list string) :
  (List.length (setFrom seen l) <= List.length l)%nat.
Proof.
  revert seen. induction l as [|x l IH]; intros seen; simpl; [lia|].
  destruct (includes seen x); simpl.
  - specialize (IH seen). lia.
  - specialize (IH (x :: seen)). lia.
Qed.

(** C4. A call of [handleSeatConfirm] that passes the guards, on a seat list
    longer than [max(1, P)], sends one PATCH request whose seat list is made
    from the first [max(1, P)] entries of the input, in their order: each is
    trimmed and put in upper case, empty results are dropped and a repeated
    identifier is kept once, where it first occurs. *)
Theorem confirm_submits_first_max_entries
    (w : Page.World) (r : ApiClient.Reservation) (P : Z)
    (seatIds : option (list string)) :
  Page.reservation (Page.state w) = Some r ->
  ApiClient.passengerCount r = Some P ->
  Page.reservationId w <> "" ->
  Page.isSyncingSeats (Page.state w) = false ->
  let input := Page.seatsToPersist seatIds (Page.state w) in
  (Z.of_nat (List.length input) > Z.max 1 P)%Z ->
  let first := firstn (Z.to_nat (Z.max 1 P)) input in
  let submitted :=
    arrayFromSet
      (filter ApiClient.nonEmpty (map (fun x => toUpperCase (trim x)) first)) in
  Page.patchLog (Page.handleSeatConfirm seatIds w)
  = (Page.patchLog w
       ++ [{| ApiClient.patchReservationId := Page.reservationId w;
              ApiClient.selected_seats := submitted |}])%list
  /\ NoDup submitted
  /\ (forall x, In x submitted <->
        x <> "" /\ exists y, In y first /\ x = toUpperCase (trim y))
  /\ (Z.of_nat (List.length submitted) <= Z.max 1 P)%Z.
Proof.
  intros Hr HP Hid Hs input Hlen first submitted.
  split; [|split; [apply arrayFromSet_NoDup|split]].
  - rewrite (handleSeatConfirm_accepted seatIds w r Hr Hid Hs). simpl.
    fold input. unfold Page.trimSeats.
    rewrite (maxSelectable_count r P HP).
    assert (G : (Z.of_nat (List.length input) >? Z.max 1 P)%Z = true) by lia.
    rewrite G. unfold slice0. fold first.
    now rewrite normalizeSeatList_strings.
  - intros x. unfold submitted.
    rewrite arrayFromSet_In, filter_In, in_map_iff, nonEmpty_true. split.
    + intros [[y [E Hy]] Hx]. split; [exact Hx|]. exists y. auto.
    + intros [Hx [y [Hy E]]]. split; [|exact Hx]. exists y. auto.
  - unfold submitted, arrayFromSet.
    pose proof (setFrom_length
        (filter ApiClient.nonEmpty (map (fun x => toUpperCase (trim x)) first)) [])
      as L1.
    pose proof (filter_length_le ApiClient.nonEmpty
        (map (fun x => toUpperCase (trim x)) first)) as L2.
    rewrite length_map in L2.
    assert (L3 : (List.length first <= Z.to_nat (Z.max 1 P))%nat)
      by apply firstn_le_length.
    lia.
Qed.

Lemma handleSeatConfirm_at_most_one (seatIds : option (list string))
    (w : Page.World) :
  (List.length (Page.patchLog (Page.handleSeatConfirm seatIds w))
   <= S (List.length (Page.patchLog w)))%nat.
Proof.
  destruct (handleSeatConfirm_guards w) as [(r & Hr & Hid & Hs)|G].
  - rewrite (handleSeatConfirm_accepted seatIds w r Hr Hid Hs). simpl.
    rewrite length_app. simpl. lia.
  - destruct (handleSeatConfirm_refused seatIds w G) as (_ & _ & C).
    rewrite C. lia.
Qed.

(** C5. In every reachable world at most one seat update is in flight; a call
    of [handleSeatConfirm] made while one is in flight sends nothing; and of
    two calls in direct succession, the first passing the guards, the second
    changes nothing, so that the two send exactly one request.  Two calls in
    direct succession never send more than one. *)
Theorem one_confirmation_in_flight (w : Page.World) :
  Page.reachable w ->
  (List.length (Page.pendingConfirm w) <= 1)%nat
  /\ (forall seatIds,
        Page.pendingConfirm w <> [] ->
        Page.patchLog (Page.step w (Page.Confirm seatIds)) = Page.patchLog w
        /\ Page.pendingConfirm (Page.step w (Page.Confirm seatIds))
           = Page.pendingConfirm w)
  /\ (forall first second r,
        Page.reservation (Page.state w) = Some r ->
        Page.reservationId w <> "" ->
        Page.isSyncingSeats (Page.state w) = false ->
        Page.step (Page.step w (Page.Confirm first)) (Page.Confirm second)
        = Page.step w (Page.Confirm first)
        /\ List.length
             (Page.patchLog
                (Page.step (Page.step w (Page.Confirm first))
                   (Page.Confirm second)))
           = S (List.length (Page.patchLog w)))
  /\ (forall first second,
        (List.length
           (Page.patchLog
              (Page.step (Page.step w (Page.Confirm first)) (Page.Confirm second)))
         <= S (List.length (Page.patchLog w)))%nat).
Proof.
  intros Hw. pose proof (reachable_oneConfirmInFlight w Hw) as Inv.
  assert (Again : forall first second r,
    Page.reservation (Page.state w) = Some r ->
    Page.reservationId w <> "" ->
    Page.isSyncingSeats (Page.state w) = false ->
    Page.step (Page.step w (Page.Confirm first)) (Page.Confirm second)
    = Page.step w (Page.Confirm first)
    /\ List.length (Page.patchLog (Page.step w (Page.Confirm first)))
       = S (List.length (Page.patchLog w))).
  { intros first second r Hr Hid Hs. simpl.
    rewrite (handleSeatConfirm_accepted first w r Hr Hid Hs). split.
    - unfold Page.handleSeatConfirm at 1. simpl. rewrite Hr.
      apply String.eqb_neq in Hid. now rewrite Hid.
    - simpl. rewrite length_app. simpl. lia. }
  split; [|split; [|split]].
  - destruct Inv as [[_ L]|[_ E]]; [lia | rewrite E; simpl; lia].
  - intros seatIds Hp. simpl.
    destruct Inv as [[S1 _]|[_ E]]; [|contradiction].
    destruct (handleSeatConfirm_refused seatIds w) as (_ & B & C); auto.
  - intros first second r Hr Hid Hs.
    destruct (Again first second r Hr Hid Hs) as [E L]. now rewrite E.
  - intros first second.
    destruct (handleSeatConfirm_guards w) as [(r & Hr & Hid & Hs)|G].
    + destruct (Again first second r Hr Hid Hs) as [E L]. rewrite E. lia.
    + simpl.
      pose proof (handleSeatConfirm_at_most_one second
                    (Page.handleSeatConfirm first w)) as L.
      destruct (handleSeatConfirm_refused first w G) as (_ & _ & C).
      rewrite C in L. exact L.
Qed.

(** ** The loading effect and its cancelled flag *)

Section Effect.

Lemma cancelLast_all (runs : list Page.EffectRun) :
  supersededCancelled runs -> Forall flagged (Page.cancelLast runs).
Proof.
  unfold supersededCancelled.
  induction runs as [|run rest IH]; intros H; [constructor|].
  destruct rest as [|next rest].
  - simpl. constructor; [reflexivity | constructor].
  - change (Page.cancelLast (run :: next :: rest))
      with (run :: Page.cancelLast (next :: rest)).
    change (removelast (run :: next :: rest))
      with (run :: removelast (next :: rest)) in H.
    inversion H as [|? ? Hrun Hrest]; subst.
    constructor; [exact Hrun | exact (IH Hrest)].
Qed.

Lemma settleNth_superseded (i : nat) (runs : list Page.EffectRun) :
  supersededCancelled runs -> supersededCancelled (Page.settleNth i runs).
Proof.
  unfold supersededCancelled. revert i.
  induction runs as [|run rest IH]; intros i H; [destruct i; exact H|].
  destruct rest as [|next rest].
  - destruct i as [|j]; [constructor|]. destruct j; constructor.
  - change (removelast (run :: next :: rest))
      with (run :: removelast (next :: rest)) in H.
    inversion H as [|? ? Hrun Hrest]; subst.
    destruct i as [|j].
    + change (Page.settleNth 0 (run :: next :: rest))
        with (Page.settle run :: next :: rest).
      change (removelast (Page.settle run :: next :: rest))
        with (Page.settle run :: removelast (next :: rest)).
      constructor; [exact Hrun | exact Hrest].
    + change (Page.settleNth (S j) (run :: next :: rest))
        with (run :: Page.settleNth j (next :: rest)).
      specialize (IH j Hrest).
      destruct (Page.settleNth j (next :: rest)) as [|a l] eqn:E.
      * destruct j; discriminate E.
      * change (removelast (run :: a :: l)) with (run :: removelast (a :: l)).
        constructor; [exact Hrun | exact IH].
Qed.

Lemma runEffect_effects (w : Page.World) :
  exists run,
    Page.effects (Page.runEffect w) = (Page.effects w ++ [run])%list
    /\ Page.cancelled run = false.
Proof.
  unfold Page.runEffect.
  destruct (String.eqb (Page.reservationId w) ""); simpl; eexists; split;
    reflexivity.
Qed.

(** After the cleanup every earlier run is flagged, so a new run of the
    effect keeps the invariant. *)
Lemma rerun_superseded (w : Page.World) :
  supersededCancelled (Page.effects w) ->
  supersededCancelled (Page.effects (Page.runEffect (Page.cleanup w))).
Proof.
  intros H. destruct (runEffect_effects (Page.cleanup w)) as [run [E _]].
  rewrite E. unfold supersededCancelled. rewrite removelast_last.
  simpl. now apply cancelLast_all.
Qed.

Lemma loadSettled_effects (i : nat) (http : ApiClient.HttpOutcome)
    (w : Page.World) :
  Page.effects (Page.loadSettled i http w) = Page.effects w
  \/ Page.effects (Page.loadSettled i http w) = Page.settleNth i (Page.effects w).
Proof.
  unfold Page.loadSettled.
  destruct (nth_error (Page.effects w) i) as [run|]; [|now left].
  destruct (Page.request run); [|now left].
  destruct (Page.settled run); [now left | now right].
Qed.

Lemma handleSeatConfirm_effects (seatIds : option (list string))
    (w : Page.World) :
  Page.effects (Page.handleSeatConfirm seatIds w) = Page.effects w.
Proof.
  unfold Page.handleSeatConfirm.
  destruct (Page.reservation (Page.state w)); [|reflexivity].
  destruct (String.eqb (Page.reservationId w) "") eqn:E; [reflexivity|].
  destruct (Page.isSyncingSeats (Page.state w)); [reflexivity|].
  unfold ApiClient.updateReservationSeatSelection_request. rewrite E.
  reflexivity.
Qed.

Lemma step_superseded (w : Page.World) (e : Page.Event) :
  supersededCancelled (Page.effects w) ->
  supersededCancelled (Page.effects (Page.step w e)).
Proof.
  intros H. destruct e; simpl; try exact H.
  - now rewrite handleSeatConfirm_effects.
  - unfold Page.confirmSettled.
    destruct (nth_error (Page.pendingConfirm w) k); exact H.
  - apply (rerun_superseded
             (Page.withState
                (Page.setRefreshCount (S (Page.refreshCount (Page.state w)))
                   (Page.state w)) w)). exact H.
  - match goal with |- context [Page.cleanup ?x] =>
      apply (rerun_superseded x) end. exact H.
  - unfold supersededCancelled.
    pose proof (cancelLast_all (Page.effects w) H) as A.
    clear H. induction A as [|run l Hrun Hl IH]; [constructor|].
    destruct l; [constructor|].
    change (removelast (run :: e :: l)) with (run :: removelast (e :: l)).
    constructor; [exact Hrun | exact IH].
  - destruct (loadSettled_effects i http w) as [E|E]; rewrite E;
      [exact H | now apply settleNth_superseded].
Qed.

Lemma reachable_superseded (w : Page.World) :
  Page.reachable w -> supersededCancelled (Page.effects w).
Proof.
  induction 1 as [id loc|w e _ IH].
  - unfold Page.mount.
    match goal with |- context [Page.runEffect ?x] =>
      destruct (runEffect_effects x) as [run [E _]] end.
    rewrite E. unfold supersededCancelled. rewrite removelast_last.
    constructor.
  - now apply step_superseded.
Qed.

Lemma nth_error_removelast {A : Type} (l : list A) (i : nat) :
  (S i < List.length l)%nat -> nth_error (removelast l) i = nth_error l i.
Proof.
  revert i. induction l as [|x l IH]; intros i H; [simpl in H; lia|].
  destruct l as [|y l]; [simpl in H; lia|].
  change (removelast (x :: y :: l)) with (x :: removelast (y :: l)).
  destruct i as [|j]; [reflexivity|].
  simpl. apply IH. simpl in *. lia.
Qed.

Lemma superseded_nth (runs : list Page.EffectRun) (i : nat) :
  supersededCancelled runs ->
  (S i < List.length runs)%nat ->
  exists run, nth_error runs i = Some run /\ Page.cancelled run = true.
Proof.
  intros H L. unfold supersededCancelled in H.
  destruct (nth_error runs i) as [run|] eqn:E.
  - exists run. split; [reflexivity|].
    rewrite <- (nth_error_removelast runs i L) in E.
    apply nth_error_In in E. rewrite Forall_forall in H. now apply H.
  - apply nth_error_None in E. lia.
Qed.

(** The result of a load whose run is flagged changes no state. *)
Lemma loadSettled_cancelled (i : nat) (http : ApiClient.HttpOutcome)
    (w : Page.World) (run : Page.EffectRun) :
  nth_error (Page.effects w) i = Some run ->
  Page.cancelled run = true ->
  Page.state (Page.loadSettled i http w) = Page.state w.
Proof.
  intros E C. unfold Page.loadSettled. rewrite E.
  destruct (Page.request run); [|reflexivity].
  destruct (Page.settled run); [reflexivity|].
  simpl. now rewrite C.
Qed.

End Effect.

(** C7. In every reachable world each run of the loading effect has its own
    [cancelled] flag, and the flag of every run but the latest is set; the
    result of a load that settles after a newer run of the effect has started,
    or after the page has been left, changes nothing in the page state:
    reservation, seat map, selection, errors and the rest stay as they are. *)
Theorem superseded_load_is_discarded (w : Page.World) :
  Page.reachable w ->
  (forall i, (S i < List.length (Page.effects w))%nat ->
     exists run, nth_error (Page.effects w) i = Some run
                 /\ Page.cancelled run = true)
  /\ (forall i http,
        (S i < List.length (Page.effects w))%nat ->
        Page.state (Page.step w (Page.LoadSettled i http)) = Page.state w)
  /\ (forall i http,
        Page.state (Page.step (Page.step w Page.Unmount) (Page.LoadSettled i http))
        = Page.state w)
  /\ (forall i http run,
        nth_error (Page.effects w) i = Some run ->
        Page.cancelled run = true ->
        Page.state (Page.step w (Page.LoadSettled i http)) = Page.state w).
Proof.
  intros Hw. pose proof (reachable_superseded w Hw) as Inv.
  split; [|split; [|split]].
  - intros i L. now apply superseded_nth.
  - intros i http L.
    destruct (superseded_nth _ i Inv L) as [run [E C]].
    exact (loadSettled_cancelled i http w run E C).
  - intros i http. simpl.
    destruct (nth_error (Page.effects (Page.cleanup w)) i) as [run|] eqn:E.
    + rewrite (loadSettled_cancelled i http (Page.cleanup w) run E);
        [reflexivity|].
      pose proof (cancelLast_all (Page.effects w) Inv) as A.
      rewrite Forall_forall in A. apply A.
      exact (nth_error_In _ _ E).
    + unfold Page.loadSettled. now rewrite E.
  - intros i http run E C. exact (loadSettled_cancelled i http w run E C).
Qed.

(** ** What the gateway returns *)

Section Gateway.

Lemma settle_success (notFound generic defaultCode : string)
    (http : ApiClient.HttpOutcome) (r : ApiClient.Reservation) (e : JsVal) :
  ApiClient.settle notFound generic defaultCode http = inr (r, e) ->
  http = ApiClient.Responded e
  /\ truthy (get "ok" e) = true
  /\ r = ApiClient.normalizeReservationPayload e.
Proof.
  destruct http as [envelope|st data|err]; simpl; try discriminate.
  destruct (truthy (get "ok" envelope)) eqn:Ok; simpl; [|discriminate].
  intros H. injection H as <- <-. auto.
Qed.

Lemma fetch_success (id : string) (http : ApiClient.HttpOutcome)
    (r : ApiClient.Reservation) (e : JsVal) :
  ApiClient.fetchReservationById id http = inr (r, e) ->
  r = ApiClient.normalizeReservationPayload e.
Proof.
  unfold ApiClient.fetchReservationById.
  destruct (String.eqb id ""); [discriminate|].
  intros H. now apply settle_success in H.
Qed.

Lemma seatsOf_normalized (value : JsVal) (fallback : list string) :
  Some (Page.seatsOf (ApiClient.normalizeReservationPayload value) fallback)
  = ApiClient.selectedSeats (ApiClient.normalizeReservationPayload value).
Proof. reflexivity. Qed.

Lemma coalesce_null_idem (v : JsVal) : (v ?? JNull) ?? JNull = v ?? JNull.
Proof. destruct v; reflexivity. Qed.

Lemma seatMap_normalized (value : JsVal) :
  ApiClient.seatMap (ApiClient.normalizeReservationPayload value) ?? JNull
  = ApiClient.seatMap (ApiClient.normalizeReservationPayload value).
Proof.
  simpl.
  destruct (get "seat_map" (get "data" value ?? value)) eqn:A; try reflexivity;
    unfold coalesce at 2 3; simpl; apply coalesce_null_idem.
Qed.

Lemma coalesce_assoc (a b c : JsVal) : (a ?? b) ?? c = a ?? b ?? c.
Proof. destruct a; reflexivity. Qed.

(** A chain of [??] that ends in null, read with a default of its own. *)
Lemma coalesce_default (a b c d : JsVal) :
  (a ?? b ?? c ?? JNull) ?? d = a ?? b ?? c ?? d.
Proof. rewrite !coalesce_assoc. reflexivity. Qed.

End Gateway.


(** C10. Whatever the payload, the [selectedSeats] of the normalized
    reservation (and of its [seatSelection]) is duplicate-free and holds only
    non-empty, trimmed, upper-case identifiers; it is made from
    [seat_selection.selected_seats] when that is an array, else from
    [seat_selection.selectedSeats] when that is an array, else from the
    reservation's [seat_assignments].  So the selection the page takes from a
    successful load or a successful seat update is in this normal form. *)
Theorem normalized_selection_normal_form (value : JsVal) :
  let container := get "data" value ?? value in
  let raw := get "seat_selection" container ?? emptyObj in
  let reservation := get "reservation" container ?? emptyObj in
  (exists seats,
      ApiClient.selectedSeats (ApiClient.normalizeReservationPayload value)
      = Some seats
      /\ option_map ApiClient.SeatSelection.selectedSeats
           (ApiClient.seatSelection (ApiClient.normalizeReservationPayload value))
         = Some (Some seats)
      /\ normalSeatList seats
      /\ (forall l, get "selected_seats" raw = JArr l ->
            seats = ApiClient.normalizeSeatList l)
      /\ (forall l, isArray (get "selected_seats" raw) = false ->
            get "selectedSeats" raw = JArr l ->
            seats = ApiClient.normalizeSeatList l)
      /\ (isArray (get "selected_seats" raw) = false ->
          isArray (get "selectedSeats" raw) = false ->
          seats
          = ApiClient.normalizeSeatList
              (arrayOr (get "seat_assignments" reservation) [])))
  /\ (forall s id http r e,
        ApiClient.fetchReservationById id http = inr (r, e) ->
        normalSeatList
          (Page.selectedSeats (Page.loadReservation_settle false (inr (r, e)) s)))
  /\ (forall s call http r e,
        ApiClient.updateReservationSeatSelection_settle http = inr (r, e) ->
        normalSeatList
          (Page.selectedSeats (Page.handleSeatConfirm_settle call (inr (r, e)) s))).
Proof.
  intros container raw reservation. split; [|split].
  - eexists. split; [reflexivity|]. split; [reflexivity|].
    split; [apply normalizeSeatList_normal|].
    fold container. fold raw. fold reservation.
    split; [|split].
    + intros l E. rewrite E. reflexivity.
    + intros l N E. rewrite N, E.
      destruct (get "selected_seats" raw); try discriminate N; reflexivity.
    + intros N1 N2. rewrite N1.
      destruct (get "selectedSeats" raw); try discriminate N2; reflexivity.
  - intros s id http r e H. apply fetch_success in H. subst r. simpl.
    apply normalizeSeatList_normal.
  - intros s call http r e H. apply settle_success in H.
    destruct H as (_ & _ & ->). simpl. apply normalizeSeatList_normal.
Qed.

(** ** A seat update from call to completion *)

Section Roundtrip.

Variable w : Page.World.
Variable r : ApiClient.Reservation.
Variable seatIds : option (list string).
Variable events : list Page.Event.

Hypothesis Hw : Page.reachable w.
Hypothesis Hr : Page.reservation (Page.state w) = Some r.
Hypothesis Hid : Page.reservationId w <> "".
Hypothesis Hs : Page.isSyncingSeats (Page.state w) = false.
Hypothesis Hev : Forall notConfirmSettled events.

(** While the request is out, whatever else happens, the call is the one
    that waits. *)
Lemma confirm_waits :
  Page.pendingConfirm (Page.run (Page.step w (Page.Confirm seatIds)) events)
  = [callOf r seatIds w].
Proof.
  assert (S1 : Page.isSyncingSeats (Page.state (Page.step w (Page.Confirm seatIds)))
               = true).
  { simpl. now rewrite (handleSeatConfirm_accepted seatIds w r Hr Hid Hs). }
  destruct (run_keeps_sync events _ Hev S1) as (_ & B & _). rewrite B.
  simpl. rewrite (handleSeatConfirm_accepted seatIds w r Hr Hid Hs). simpl.
  destruct (reachable_oneConfirmInFlight w Hw) as [[F _]|[_ E]]; [congruence|].
  now rewrite E.
Qed.

Lemma confirm_then_settle (http : ApiClient.HttpOutcome) :
  Page.step (Page.run (Page.step w (Page.Confirm seatIds)) events)
    (Page.ConfirmSettled 0 http)
  = Page.withPendingConfirm []
      (Page.withState
         (Page.handleSeatConfirm_settle (callOf r seatIds w)
            (ApiClient.updateReservationSeatSelection_settle http)
            (Page.state (Page.run (Page.step w (Page.Confirm seatIds)) events)))
         (Page.run (Page.step w (Page.Confirm seatIds)) events)).
Proof.
  pose proof confirm_waits as P.
  set (waiting := Page.run (Page.step w (Page.Confirm seatIds)) events) in *.
  cbn [Page.step]. unfold Page.confirmSettled. rewrite P. reflexivity.
Qed.

End Roundtrip.


(** C3. When the seat update succeeds, whatever happened while it was out,
    the reservation is the one the gateway returned, the selection is that
    reservation's selection, the seat map is its seat map, the timestamp is
    the [updatedAt] of its seat selection (the empty string when that is
    null), which is the first of the envelope's [seat_selection.updated_at],
    [seat_selection.updatedAt] and [reservation.seat_assignments_updated_at]
    that is not nullish, the seat error is empty, the seat dialog is closed
    and the sync has ended. *)
Theorem confirm_success_adopts_server_state
    (w : Page.World) (r : ApiClient.Reservation)
    (seatIds : option (list string)) (events : list Page.Event)
    (envelope : JsVal) :
  Page.reachable w ->
  Page.reservation (Page.state w) = Some r ->
  Page.reservationId w <> "" ->
  Page.isSyncingSeats (Page.state w) = false ->
  Forall notConfirmSettled events ->
  truthy (get "ok" envelope) = true ->
  let updated := ApiClient.normalizeReservationPayload envelope in
  let container := get "data" envelope ?? envelope in
  let selectionRaw := get "seat_selection" container ?? emptyObj in
  let returned := get "reservation" container ?? emptyObj in
  let w' :=
    Page.step (Page.run (Page.step w (Page.Confirm seatIds)) events)
      (Page.ConfirmSettled 0 (ApiClient.Responded envelope)) in
  Page.reservation (Page.state w') = Some updated
  /\ Some (Page.selectedSeats (Page.state w')) = ApiClient.selectedSeats updated
  /\ Page.seatMap (Page.state w') = ApiClient.seatMap updated
  /\ (exists selection,
        ApiClient.seatSelection updated = Some selection
        /\ Page.seatSelectionUpdatedAt (Page.state w')
           = ApiClient.SeatSelection.updatedAt selection ?? JStr "")
  /\ Page.seatSelectionUpdatedAt (Page.state w')
     = get "updated_at" selectionRaw ?? get "updatedAt" selectionRaw
         ?? get "seat_assignments_updated_at" returned ?? JStr ""
  /\ Page.seatSyncError (Page.state w') = ""
  /\ Page.isSeatModalOpen (Page.state w') = false
  /\ Page.isSyncingSeats (Page.state w') = false
  /\ Page.pendingConfirm w' = [].
Proof.
  intros Hw Hr Hid Hs Hev Hok updated container selectionRaw returned w'.
  subst w'.
  rewrite (confirm_then_settle w r seatIds events Hw Hr Hid Hs Hev).
  unfold ApiClient.updateReservationSeatSelection_settle, ApiClient.settle.
  rewrite Hok. cbn [negb].
  cbn [Page.handleSeatConfirm_settle Page.state Page.withState
       Page.withPendingConfirm Page.pendingConfirm
       Page.reservation Page.selectedSeats Page.seatMap
       Page.seatSelectionUpdatedAt Page.seatSyncError Page.isSeatModalOpen
       Page.isSyncingSeats Page.setIsSyncingSeats Page.setSeatModalOpen
       Page.setSeatSyncError Page.setSeatSelectionUpdatedAt
       Page.setSelectedSeats Page.setSeatMap Page.setReservation].
  fold updated.
  split; [reflexivity|]. split; [apply seatsOf_normalized|].
  split; [apply seatMap_normalized|].
  split; [eexists; split; reflexivity|].
  split; [exact (coalesce_default _ _ _ _)|].
  repeat split; reflexivity.
Qed.

(** ** The properties on the sample data *)

Lemma loadedWorld_reachable : Page.reachable loadedWorld.
Proof. exact (Page.reachable_step _ _ (Page.reachable_mount "R1" None)). Qed.

Lemma singleWorld_reachable : Page.reachable singleWorld.
Proof. exact (Page.reachable_step _ _ (Page.reachable_mount "R1" None)). Qed.

Lemma reloadingWorld_reachable : Page.reachable reloadingWorld.
Proof. exact (Page.reachable_step _ _ (Page.reachable_mount "R1" None)). Qed.

(** Two passengers, nothing selected: 12a and 12b are taken, 14c is refused
    with the limit message. *)
Example toggle_scenario_two_passengers :
  Page.selectedSeats (Page.state (Page.run loadedWorld [Page.Toggle "1A"])) = []
  /\ Page.selectedSeats
       (Page.state (Page.run loadedWorld [Page.Toggle "1A"; Page.Toggle "12a"]))
     = ["12A"]
  /\ Page.selectedSeats
       (Page.state
          (Page.run loadedWorld
             [Page.Toggle "1A"; Page.Toggle "12a"; Page.Toggle "12b"]))
     = ["12A"; "12B"]
  /\ Page.selectedSeats
       (Page.state
          (Page.run loadedWorld
             [Page.Toggle "1A"; Page.Toggle "12a"; Page.Toggle "12b";
              Page.Toggle "14c"]))
     = ["12A"; "12B"]
  /\ Page.seatSyncError
       (Page.state
          (Page.run loadedWorld
             [Page.Toggle "1A"; Page.Toggle "12a"; Page.Toggle "12b";
              Page.Toggle "14c"]))
     = "You can select up to 2 seats.".
Proof. vm_compute. repeat split; reflexivity. Qed.

Lemma toggleSeat_never_exceeds_limit_witness :
  (Z.of_nat
     (List.length
        (Page.selectedSeats
           (fold_left (fun st seatId => Page.handleSeatToggle seatId st)
              ["12a"; "12b"; "14c"] (Page.state loadedWorld))))
   <= Z.max 1 2)%Z.
Proof.
  refine (proj1
            (toggleSeat_never_exceeds_limit
               (ApiClient.normalizeReservationPayload sampleEnvelope) 2
               (Page.state loadedWorld) _ _ _) _ _).
  - reflexivity.
  - reflexivity.
  - lia.
  - vm_compute. discriminate.
Defined.


(** A rejection with an empty message leaves the seat error empty. *)
Example confirm_failure_empty_message :
  Page.seatSyncError
    (Page.state
       (Page.run unsavedWorld
          [Page.Confirm None;
           Page.ConfirmSettled 0 (ApiClient.Responded silentFailureEnvelope)]))
  = "".
Proof. reflexivity. Qed.


(** The server's answer wins over the submitted list: the user submits 1A
    and 2B, the server keeps 1A only and stamps the selection t1, and the
    page, which showed t0, shows t1. *)
Lemma confirm_success_adopts_server_state_witness :
  Some
    (Page.selectedSeats
       (Page.state
          (Page.run unsavedWorld
             [Page.Confirm (Some ["1A"; "2B"]); Page.OpenSeatModal;
              Page.ConfirmSettled 0 (ApiClient.Responded updatedEnvelope)])))
  = Some ["1A"]
  /\ Page.isSeatModalOpen
       (Page.state
          (Page.run unsavedWorld
             [Page.Confirm (Some ["1A"; "2B"]); Page.OpenSeatModal;
              Page.ConfirmSettled 0 (ApiClient.Responded updatedEnvelope)]))
     = false
  /\ Page.seatSelectionUpdatedAt (Page.state unsavedWorld) = JStr "t0"
  /\ Page.seatSelectionUpdatedAt
       (Page.state
          (Page.run unsavedWorld
             [Page.Confirm (Some ["1A"; "2B"]); Page.OpenSeatModal;
              Page.ConfirmSettled 0 (ApiClient.Responded updatedEnvelope)]))
     = JStr "t1".
Proof.
  pose proof (confirm_success_adopts_server_state unsavedWorld
                (ApiClient.normalizeReservationPayload sampleEnvelope)
                (Some ["1A"; "2B"]) [Page.OpenSeatModal] updatedEnvelope) as H.
  assert (H1 : Page.reachable unsavedWorld)
    by exact (Page.reachable_step _ _ loadedWorld_reachable).
  assert (H2 : Page.reservation (Page.state unsavedWorld)
               = Some (ApiClient.normalizeReservationPayload sampleEnvelope))
    by (vm_compute; reflexivity).
  assert (H3 : Page.reservationId unsavedWorld <> "")
    by (vm_compute; discriminate).
  assert (H4 : Page.isSyncingSeats (Page.state unsavedWorld) = false)
    by (vm_compute; reflexivity).
  assert (H5 : Forall notConfirmSettled [Page.OpenSeatModal])
    by (constructor; [exact I | constructor]).
  specialize (H H1 H2 H3 H4 H5 eq_refl).
  destruct H as (_ & A & _ & _ & C & _ & B & _).
  split; [conclude A|]. split; [conclude B|].
  split; [vm_compute; reflexivity | conclude C].
Defined.

(** Confirming 3A, 3A, 3b for one passenger submits 3A. *)
Lemma confirm_submits_first_max_entries_witness :
  Page.patchLog
    (Page.handleSeatConfirm (Some ["3A"; "3A"; "3b"]) singleWorld)
  = [{| ApiClient.patchReservationId := "R1";
        ApiClient.selected_seats := ["3A"] |}].
Proof.
  pose proof (confirm_submits_first_max_entries singleWorld
                (ApiClient.normalizeReservationPayload singleEnvelope) 1
                (Some ["3A"; "3A"; "3b"])) as H.
  assert (H1 : Page.reservation (Page.state singleWorld)
               = Some (ApiClient.normalizeReservationPayload singleEnvelope))
    by (vm_compute; reflexivity).
  assert (H2 : ApiClient.passengerCount
                 (ApiClient.normalizeReservationPayload singleEnvelope)
               = Some 1%Z) by reflexivity.
  assert (H3 : Page.reservationId singleWorld <> "")
    by (vm_compute; discriminate).
  assert (H4 : Page.isSyncingSeats (Page.state singleWorld) = false)
    by (vm_compute; reflexivity).
  assert (H5 : (Z.of_nat
                  (List.length
                     (Page.seatsToPersist (Some ["3A"; "3A"; "3b"])
                        (Page.state singleWorld)))
                > Z.max 1 1)%Z) by (vm_compute; reflexivity).
  specialize (H H1 H2 H3 H4 H5). destruct H as (A & _).
  conclude A.
Defined.

(** The list is cut before duplicates are removed: for two passengers,
    3A, 3A, 3B submits 3A alone. *)
Example confirm_cuts_before_deduplication :
  Page.patchLog
    (Page.handleSeatConfirm (Some ["3A"; "3A"; "3B"]) loadedWorld)
  = [{| ApiClient.patchReservationId := "R1";
        ApiClient.selected_seats := ["3A"] |}].
Proof. reflexivity. Qed.

Lemma one_confirmation_in_flight_witness :
  Page.step (Page.step loadedWorld (Page.Confirm None)) (Page.Confirm None)
  = Page.step loadedWorld (Page.Confirm None)
  /\ List.length
       (Page.patchLog
          (Page.step (Page.step loadedWorld (Page.Confirm None))
             (Page.Confirm None)))
     = 1%nat.
Proof.
  pose proof (one_confirmation_in_flight loadedWorld loadedWorld_reachable)
    as (_ & _ & H & _).
  specialize (H None None
                (ApiClient.normalizeReservationPayload sampleEnvelope)).
  assert (H1 : Page.reservation (Page.state loadedWorld)
               = Some (ApiClient.normalizeReservationPayload sampleEnvelope))
    by (vm_compute; reflexivity).
  assert (H2 : Page.reservationId loadedWorld <> "")
    by (vm_compute; discriminate).
  assert (H3 : Page.isSyncingSeats (Page.state loadedWorld) = false)
    by (vm_compute; reflexivity).
  exact (H H1 H2 H3).
Defined.

Lemma toggle_selected_seat_removes_it_witness :
  Page.selectedSeats (Page.handleSeatToggle " 1a " (Page.state loadedWorld)) = []
  /\ Page.seatSyncError (Page.handleSeatToggle " 1a " (Page.state loadedWorld))
     = "".
Proof.
  pose proof (toggle_selected_seat_removes_it
                (ApiClient.normalizeReservationPayload sampleEnvelope)
                (Page.state loadedWorld) " 1a ") as H.
  assert (H1 : Page.reservation (Page.state loadedWorld)
               = Some (ApiClient.normalizeReservationPayload sampleEnvelope))
    by (vm_compute; reflexivity).
  assert (H2 : Page.isSyncingSeats (Page.state loadedWorld) = false)
    by (vm_compute; reflexivity).
  assert (H3 : toUpperCase (trim " 1a ") <> "") by (vm_compute; discriminate).
  assert (H4 : In (toUpperCase (trim " 1a "))
                 (Page.selectedSeats (Page.state loadedWorld)))
    by (vm_compute; left; reflexivity).
  specialize (H H1 H2 H3 H4). destruct H as (_ & A & _).
  split; [vm_compute; reflexivity | exact A].
Defined.

(** A booked seat that is in the selection can still be clicked. *)
Example widget_forwards_click_on_booked_selected_seat :
  SeatMapWidget.click sampleProps false
    (SeatMapWidget.ClickSeat
       {| SeatMapWidget.id := "2b"; SeatMapWidget.status := "booked" |})
  = (false, [SeatMapWidget.SeatToggle "2B"]).
Proof. reflexivity. Qed.

Lemma widget_never_confirms_empty_selection_witness :
  ["1A"; "2B"] <> []
  /\ ["1A"; "2B"] = SeatMapWidget.sortedSelected sampleProps.
Proof.
  pose proof (widget_never_confirms_empty_selection sampleProps true
                SeatMapWidget.ClickDialogConfirm ["1A"; "2B"]) as H.
  assert (H1 : In (SeatMapWidget.ConfirmSelection ["1A"; "2B"])
                 (snd (SeatMapWidget.click sampleProps true
                         SeatMapWidget.ClickDialogConfirm)))
    by (vm_compute; left; reflexivity).
  destruct (H H1) as (A & B & _). exact (conj A B).
Defined.

(** The first load settles after a reload has started: nothing changes. *)
Lemma superseded_load_is_discarded_witness :
  Page.state
    (Page.step reloadingWorld
       (Page.LoadSettled 0 (ApiClient.Responded sampleEnvelope)))
  = Page.state reloadingWorld.
Proof.
  pose proof (superseded_load_is_discarded reloadingWorld
                reloadingWorld_reachable) as (_ & H & _).
  apply H. vm_compute. lia.
Defined.


Lemma normalized_selection_normal_form_witness :
  normalSeatList ["1A"]
  /\ ApiClient.selectedSeats (ApiClient.normalizeReservationPayload sampleEnvelope)
     = Some ["1A"].
Proof.
  destruct (normalized_selection_normal_form sampleEnvelope)
    as ((seats & A & _ & B & C & _) & _).
  specialize (C [JStr "1A"] eq_refl).
  assert (E : seats = ["1A"]) by (rewrite C; vm_compute; reflexivity).
  rewrite E in A, B. exact (conj B A).
Defined.

(** * Further properties of the code *)

(** ** Induction on JSON values *)

Lemma JsVal_nested_ind (P : JsVal -> Prop) :
  P JUndefined -> P JNull -> (forall b, P (JBool b)) -> (forall n, P (JNum n)) ->
  (forall s, P (JStr s)) ->
  (forall items, Forall P items -> P (JArr items)) ->
  (forall fields, Forall (fun field => P (snd field)) fields -> P (JObj fields)) ->
  forall v, P v.
Proof.
  intros Hu Hn Hb Hz Hs Ha Ho. fix IH 1. intros [| |b|n|s|items|fields].
  - exact Hu.
  - exact Hn.
  - apply Hb.
  - apply Hz.
  - apply Hs.
  - apply Ha. induction items as [|x items IHl]; constructor;
      [apply IH | exact IHl].
  - apply Ho. induction fields as [|[k x] fields IHl]; constructor;
      [apply IH | exact IHl].
Qed.

Lemma partOf_trans (u v w : JsVal) : partOf u v -> partOf v w -> partOf u w.
Proof.
  intros Huv Hvw. induction Hvw as [|x items Hin _ IH|k x fields Hin _ IH].
  - exact Huv.
  - exact (partOf_item u x items Hin IH).
  - exact (partOf_field u k x fields Hin IH).
Qed.

(** ** The gateway's results *)

(** X1. Both gateway functions succeed exactly on a response whose envelope
    has a truthy [ok] (and, for the fetch, a non-empty reservation id); the
    reservation they return is the normal form of that envelope. *)
Theorem gateway_succeeds_only_on_ok_envelope
    (id : string) (http : ApiClient.HttpOutcome)
    (r : ApiClient.Reservation) (e : JsVal) :
  (ApiClient.fetchReservationById id http = inr (r, e)
   <-> id <> "" /\ http = ApiClient.Responded e
       /\ truthy (get "ok" e) = true
       /\ r = ApiClient.normalizeReservationPayload e)
  /\ (ApiClient.updateReservationSeatSelection_settle http = inr (r, e)
      <-> http = ApiClient.Responded e
          /\ truthy (get "ok" e) = true
          /\ r = ApiClient.normalizeReservationPayload e).
Proof.
  assert (Back : forall notFound generic defaultCode,
             http = ApiClient.Responded e ->
             truthy (get "ok" e) = true ->
             r = ApiClient.normalizeReservationPayload e ->
             ApiClient.settle notFound generic defaultCode http = inr (r, e)).
  { intros notFound generic defaultCode -> Hok ->. simpl. now rewrite Hok. }
  split; split.
  - unfold ApiClient.fetchReservationById.
    destruct (String.eqb id "") eqn:E; [discriminate|].
    apply String.eqb_neq in E. intros H. apply settle_success in H. tauto.
  - intros (Hid & Hh & Hok & Hr). unfold ApiClient.fetchReservationById.
    apply String.eqb_neq in Hid. rewrite Hid. now apply Back.
  - apply settle_success.
  - intros (Hh & Hok & Hr). now apply Back.
Qed.


(** X3. When a request is refused and the response's [detail] (or, without
    one, its body) has no [message], the thrown message depends on the status
    alone: the not-found text for 404, the generic text otherwise.  A body
    [message] beside a [detail] is not read. *)
Theorem refused_request_message_by_status
    (id : string) (httpStatus : Z) (data : JsVal) :
  id <> "" ->
  isNullish (get "message" (get "detail" data ?? data)) = true ->
  exists err,
    ApiClient.fetchReservationById id (ApiClient.Refused httpStatus data) = inl err
    /\ ApiClient.message err
       = Some (if Z.eqb httpStatus 404
               then "We could not find a reservation with that ID."
               else "Unable to load the reservation details right now.")
    /\ ApiClient.status err = Some httpStatus
    /\ (forall s other,
          data = JObj [("detail", JStr s); ("message", other)] ->
          ApiClient.code err = JStr "RESERVATION_FETCH_FAILED"
          /\ ApiClient.envelope err = JStr s).
Proof.
  intros Hid Hmsg. unfold ApiClient.fetchReservationById.
  apply String.eqb_neq in Hid. rewrite Hid. simpl. eexists. split; [reflexivity|].
  simpl. unfold ApiClient.messageOr. rewrite Hmsg.
  split; [reflexivity|]. split; [reflexivity|].
  intros s other ->. split; reflexivity.
Qed.

(** ** Seat lists in normal form *)

Lemma setFrom_fresh (l seen : list string) :
  NoDup l -> (forall x, In x l -> ~ In x seen) -> setFrom seen l = l.
Proof.
  revert seen. induction l as [|x l IH]; intros seen Hnd Hfresh; [reflexivity|].
  inversion Hnd as [|? ? Hx Hl]; subst. simpl.
  assert (E : includes seen x = false)
    by (apply includes_not_In, Hfresh; now left).
  rewrite E. f_equal. apply IH; [exact Hl|].
  intros y Hy [->|Hs]; [contradiction|].
  apply (Hfresh y); [now right | exact Hs].
Qed.

Lemma normalSeatList_fixed (l : list string) :
  normalSeatList l -> ApiClient.normalizeSeatList (map JStr l) = l.
Proof.
  intros [Hnd Hall]. rewrite normalizeSeatList_strings.
  assert (M : map (fun x => toUpperCase (trim x)) l = l).
  { clear Hnd. induction Hall as [|x l (_ & Ht & Hu) _ IH]; [reflexivity|].
    simpl. now rewrite Ht, Hu, IH. }
  assert (F : filter ApiClient.nonEmpty l = l).
  { clear Hnd M. induction Hall as [|x l (Hn & _) _ IH]; [reflexivity|].
    simpl. apply nonEmpty_true in Hn. now rewrite Hn, IH. }
  rewrite M, F. unfold arrayFromSet. apply setFrom_fresh; [exact Hnd|].
  intros x _ [].
Qed.

(** X4. Normalizing is idempotent: a seat list that went through the
    gateway's pipeline (what the server returned, or what the page holds
    after a load) is sent back unchanged, in the same order. *)
Theorem normalizeSeatList_idempotent (seats : list JsVal) :
  ApiClient.normalizeSeatList (map JStr (ApiClient.normalizeSeatList seats))
  = ApiClient.normalizeSeatList seats
  /\ (forall reservationId : string,
        reservationId <> "" ->
        ApiClient.updateReservationSeatSelection_request reservationId
          (JArr (map JStr (ApiClient.normalizeSeatList seats)))
        = inr {| ApiClient.patchReservationId := reservationId;
                 ApiClient.selected_seats := ApiClient.normalizeSeatList seats |}).
Proof.
  pose proof (normalSeatList_fixed _ (normalizeSeatList_normal seats)) as E.
  split; [exact E|].
  intros reservationId Hid.
  unfold ApiClient.updateReservationSeatSelection_request.
  apply String.eqb_neq in Hid. rewrite Hid. simpl. now rewrite E.
Qed.

(** X5. An envelope wrapped in a [data] field is read like the envelope
    itself, provided the envelope has no [data] field of its own. *)
Theorem normalize_unwraps_data (envelope : JsVal) :
  isNullish envelope = false ->
  isNullish (get "data" envelope) = true ->
  ApiClient.normalizeReservationPayload (JObj [("data", envelope)])
  = ApiClient.normalizeReservationPayload envelope.
Proof.
  intros Hv Hd. unfold ApiClient.normalizeReservationPayload.
  assert (C1 : get "data" (JObj [("data", envelope)]) ?? JObj [("data", envelope)]
               = envelope).
  { simpl. unfold coalesce. now rewrite Hv. }
  assert (C2 : get "data" envelope ?? envelope = envelope).
  { unfold coalesce. now rewrite Hd. }
  rewrite C1, C2.
  assert (B : get "bill" envelope ?? get "bill" (JObj [("data", envelope)]) ?? JNull
              = get "bill" envelope ?? get "bill" envelope ?? JNull).
  { simpl. destruct (get "bill" envelope); reflexivity. }
  rewrite B. reflexivity.
Qed.

(** ** extractSessionId *)

Lemma orElse_cases (a b : JsVal) : orElse a b = a \/ orElse a b = b.
Proof. unfold orElse. destruct (truthy a); auto. Qed.

Lemma orElse_truthy (a b : JsVal) : truthy a = true -> orElse a b = a.
Proof. unfold orElse. now intros ->. Qed.

(** X6. The session id is the empty string or a non-empty string found under
    [session.name], [sessionId], [name], [id] or [session.id]; a non-empty
    string under [session.name] wins; and a truthy [session.name] that is not
    a string hides every later field. *)
Theorem extractSessionId_sources (payload : JsVal) :
  (ApiClient.extractSessionId payload <> "" ->
   In (JStr (ApiClient.extractSessionId payload))
     [get "name" (get "session" payload); get "sessionId" payload;
      get "name" payload; get "id" payload; get "id" (get "session" payload)])
  /\ (forall s, s <> "" ->
        get "name" (get "session" payload) = JStr s ->
        ApiClient.extractSessionId payload = s)
  /\ (truthy (get "name" (get "session" payload)) = true ->
      isString (get "name" (get "session" payload)) = false ->
      ApiClient.extractSessionId payload = "").
Proof.
  unfold ApiClient.extractSessionId.
  set (a := get "name" (get "session" payload)).
  set (b := get "sessionId" payload). set (c := get "name" payload).
  set (d := get "id" payload). set (e := get "id" (get "session" payload)).
  assert (T : truthy a = true -> truthy payload = true).
  { subst a. destruct payload; simpl; try discriminate; reflexivity. }
  assert (First : truthy a = true ->
                  orElse (orElse (orElse (orElse a b) c) d) e = a).
  { intros A. rewrite (orElse_truthy a b A), (orElse_truthy a c A),
      (orElse_truthy a d A). apply (orElse_truthy a e A). }
  split; [|split].
  - destruct (truthy payload); simpl; [|congruence].
    destruct (orElse (orElse (orElse (orElse a b) c) d) e) as [ | | | | s | | ] eqn:M;
      try congruence.
    intros _. rewrite <- M.
    destruct (orElse_cases (orElse (orElse (orElse a b) c) d) e) as [-> | ->];
      [|now do 4 right; left].
    destruct (orElse_cases (orElse (orElse a b) c) d) as [-> | ->];
      [|now do 3 right; left].
    destruct (orElse_cases (orElse a b) c) as [-> | ->]; [|now do 2 right; left].
    destruct (orElse_cases a b) as [-> | ->]; [now left | now right; left].
  - intros s Hs E.
    assert (A : truthy a = true).
    { rewrite E. simpl. apply String.eqb_neq in Hs. now rewrite Hs. }
    rewrite (T A), (First A), E. reflexivity.
  - intros A S. rewrite (T A), (First A). simpl.
    destruct a; try reflexivity. discriminate S.
Qed.

(** ** extractReservations *)

Section ExtractReservations.

Lemma truthy_not_nullish (v : JsVal) : truthy v = true -> isNullish v = false.
Proof. destruct v; simpl; congruence. Qed.

(** What looks like an envelope has a string id, which its normal form
    carries. *)
Lemma looksLike_id (v : JsVal) :
  ApiClient.looksLikeReservationEnvelope v = true ->
  exists id,
    ApiClient.reservationId (ApiClient.normalizeReservationPayload v) = JStr id.
Proof.
  unfold ApiClient.looksLikeReservationEnvelope.
  destruct (negb (truthy v) || negb (isObject v)); [discriminate|].
  intros H. apply andb_true_iff in H. destruct H as [H Hs].
  apply andb_true_iff in H. destruct H as [Ht _].
  unfold ApiClient.normalizeReservationPayload. simpl.
  unfold coalesce at 1. rewrite (truthy_not_nullish _ Ht).
  destruct (get "reservation_id" (get "reservation" (get "data" v ?? v)));
    try discriminate Hs.
  eexists. reflexivity.
Qed.

(** Only an object that is not an array looks like an envelope. *)
Lemma looksLike_object (v : JsVal) :
  ApiClient.looksLikeReservationEnvelope v = true ->
  exists fields, v = JObj fields.
Proof.
  destruct v as [ | | b | n | s | items | fields ]; try discriminate.
  - unfold ApiClient.looksLikeReservationEnvelope. simpl.
    now rewrite orb_true_r.
  - unfold ApiClient.looksLikeReservationEnvelope. simpl.
    now rewrite orb_true_r.
  - unfold ApiClient.looksLikeReservationEnvelope. simpl.
    now rewrite orb_true_r.
  - intros _. now exists fields.
Qed.

Lemma collect_object (fields : list (string * JsVal))
    (acc : list ApiClient.Reservation * list string) :
  ApiClient.collectReservationsDeep (JObj fields) acc
  = fold_left
      (fun acc' field => ApiClient.collectReservationsDeep (snd field) acc')
      fields (visitEnvelope (JObj fields) acc).
Proof. reflexivity. Qed.

Lemma NoDup_snoc {A : Type} (l : list A) (x : A) :
  NoDup l -> ~ In x l -> NoDup (l ++ [x]).
Proof.
  intros Hl Hx. apply NoDup_app; [exact Hl | repeat constructor; intros [] |].
  intros y Hy [<-|[]]. exact (Hx Hy).
Qed.

Lemma walked_refl (root : JsVal)
    (acc : list ApiClient.Reservation * list string) :
  collected root acc -> walked root (fun _ => False) acc acc.
Proof.
  intros H. split; [exact H|]. split; [exists []; now rewrite app_nil_r|].
  intros u [].
Qed.

(** Two walks in a row. *)
Lemma walked_trans (root : JsVal) (c1 c2 : JsVal -> Prop)
    (acc acc1 acc2 : list ApiClient.Reservation * list string) :
  walked root c1 acc acc1 -> walked root c2 acc1 acc2 ->
  walked root (fun u => c1 u \/ c2 u) acc acc2.
Proof.
  intros (_ & [e1 E1] & K1) (I2 & [e2 E2] & K2).
  split; [exact I2|]. split.
  - exists (e1 ++ e2)%list. now rewrite E2, E1, app_assoc.
  - intros u [Hu|Hu] L; [|now apply K2].
    rewrite E2, map_app. apply in_or_app. left. now apply K1.
Qed.

Lemma walked_covered (root : JsVal) (c c' : JsVal -> Prop)
    (acc acc' : list ApiClient.Reservation * list string) :
  (forall u, c' u -> ApiClient.looksLikeReservationEnvelope u = true -> c u) ->
  walked root c acc acc' -> walked root c' acc acc'.
Proof.
  intros Hc (I & E & K). split; [exact I|]. split; [exact E|].
  intros u Hu L. apply K; [now apply Hc | exact L].
Qed.

Lemma visitEnvelope_walked (root v : JsVal)
    (acc : list ApiClient.Reservation * list string) :
  partOf v root -> collected root acc ->
  walked root (fun u => u = v) acc (visitEnvelope v acc).
Proof.
  intros Hv (I1 & I2 & I3). unfold visitEnvelope.
  destruct (ApiClient.looksLikeReservationEnvelope v) eqn:L.
  - destruct (looksLike_id v L) as [id Eid]. rewrite Eid.
    destruct (includes (snd acc) id) eqn:Ein.
    + split; [exact (conj I1 (conj I2 I3))|].
      split; [exists []; now rewrite app_nil_r|].
      intros u -> _. rewrite Eid. apply I1. now apply includes_In.
    + apply includes_not_In in Ein.
      assert (M : map ApiClient.reservationId
                    (fst acc ++ [ApiClient.normalizeReservationPayload v])
                  = (map ApiClient.reservationId (fst acc) ++ [JStr id])%list).
      { rewrite map_app. cbn [map]. now rewrite Eid. }
      split; [split; [|split]|split]; cbn [fst snd].
      * intros id'. rewrite M, in_app_iff, <- I1. split.
        -- intros [<-|H]; [right; now left | now left].
        -- intros [H|[H|[]]]; [now right | left; congruence].
      * rewrite M. apply NoDup_snoc; [exact I2|].
        intros H. apply Ein. now apply I1.
      * intros r Hr. apply in_app_or in Hr.
        destruct Hr as [Hr|[<-|[]]]; [now apply I3|].
        exists v. auto.
      * exists [ApiClient.normalizeReservationPayload v]. reflexivity.
      * intros u -> _. rewrite M, Eid. apply in_or_app. right. now left.
  - split; [exact (conj I1 (conj I2 I3))|].
    split; [exists []; now rewrite app_nil_r|].
    intros u ->. congruence.
Qed.

(** A walk over children that each walk well. *)
Lemma fold_walked {A : Type} (f : A -> JsVal) (root : JsVal) (xs : list A) :
  Forall (fun x => collectsWell (f x)) xs ->
  (forall x, In x xs -> partOf (f x) root) ->
  forall acc,
    collected root acc ->
    walked root (fun u => exists x, In x xs /\ partOf u (f x)) acc
      (fold_left (fun acc' x => ApiClient.collectReservationsDeep (f x) acc')
         xs acc).
Proof.
  induction 1 as [|x xs Hx _ IH]; intros Hin acc Hacc.
  - simpl. apply (walked_covered root (fun _ => False)); [|now apply walked_refl].
    intros u [x [[] _]].
  - cbn [fold_left].
    assert (W1 := Hx root acc (Hin x (or_introl eq_refl)) Hacc).
    assert (W2 := IH (fun y Hy => Hin y (or_intror Hy)) _ (proj1 W1)).
    refine (walked_covered root _ _ _ _ _ (walked_trans _ _ _ _ _ _ W1 W2)).
    intros u [y [[<-|Hy] Hu]] _; [now left | right; eauto].
Qed.

Lemma collectsWell_all (v : JsVal) : collectsWell v.
Proof.
  induction v as [ | | b | n | s | items IH | fields IH ] using JsVal_nested_ind;
    try (intros root acc _ Hacc;
         apply (walked_covered root (fun _ => False)); [|now apply walked_refl];
         intros u Hu L; inversion Hu; subst;
         destruct (looksLike_object _ L) as [fields E]; discriminate E).
  - intros root acc Hv Hacc.
    assert (W := fold_walked (fun x => x) root items IH
                   (fun x Hx => partOf_trans _ _ _
                                  (partOf_item x x items Hx (partOf_self x)) Hv)
                   acc Hacc).
    refine (walked_covered root _ _ _ _ _ W).
    intros u Hu L. inversion Hu as [|x its Hx Hux|]; subst.
    + destruct (looksLike_object _ L) as [fields E]. discriminate E.
    + exists x. auto.
  - intros root acc Hv Hacc. rewrite collect_object.
    assert (W1 := visitEnvelope_walked root (JObj fields) acc Hv Hacc).
    assert (W2 := fold_walked (fun field => snd field) root fields IH
                   (fun field Hf =>
                      partOf_trans _ _ _
                        (partOf_field (snd field) (fst field) (snd field) fields
                           ltac:(now destruct field) (partOf_self _)) Hv)
                   _ (proj1 W1)).
    refine (walked_covered root _ _ _ _ _ (walked_trans _ _ _ _ _ _ W1 W2)).
    intros u Hu _. inversion Hu as [| |k x fs Hx Hux]; subst.
    + now left.
    + right. exists (k, x). auto.
Qed.

Lemma extractReservations_walked (payload : JsVal) :
  walked payload (fun u => partOf u payload) ([], [])
    (ApiClient.collectReservationsDeep payload ([], [])).
Proof.
  apply collectsWell_all; [constructor|].
  split; [|split]; simpl.
  - tauto.
  - constructor.
  - intros r [].
Qed.

End ExtractReservations.

(** X7. The reservations extracted from a chat payload have pairwise distinct
    ids, every id is a string, and every one carries its selection in the
    gateway's normal form, which is what the page shows when it is preloaded
    with one of them. *)
Theorem extractReservations_distinct_ids (payload : JsVal) :
  NoDup (map ApiClient.reservationId (ApiClient.extractReservations payload))
  /\ Forall
       (fun r =>
          (exists id, ApiClient.reservationId r = JStr id)
          /\ ApiClient.selectedSeats r = Some (Page.seatsOf r [])
          /\ normalSeatList (Page.seatsOf r []))
       (ApiClient.extractReservations payload).
Proof.
  unfold ApiClient.extractReservations.
  destruct (truthy payload); simpl; [|split; constructor].
  destruct (extractReservations_walked payload) as ((_ & Hnd & Hsrc) & _ & _).
  split; [exact Hnd|]. apply Forall_forall. intros r Hr.
  destruct (Hsrc r Hr) as (u & _ & L & ->).
  split; [exact (looksLike_id u L)|]. split; [reflexivity|].
  apply normalizeSeatList_normal.
Qed.

(** X8. Every extracted reservation is the normal form of an object of the
    payload that looks like a reservation envelope, and every such object,
    however deep, has its id among the extracted reservations. *)
Theorem extractReservations_sound_and_complete (payload : JsVal) :
  (forall r, In r (ApiClient.extractReservations payload) ->
     exists u, partOf u payload
               /\ ApiClient.looksLikeReservationEnvelope u = true
               /\ r = ApiClient.normalizeReservationPayload u)
  /\ (forall u, partOf u payload ->
        ApiClient.looksLikeReservationEnvelope u = true ->
        exists r, In r (ApiClient.extractReservations payload)
                  /\ ApiClient.reservationId r
                     = ApiClient.reservationId
                         (ApiClient.normalizeReservationPayload u)).
Proof.
  unfold ApiClient.extractReservations.
  destruct (extractReservations_walked payload) as ((_ & _ & Hsrc) & _ & Hall).
  destruct (truthy payload) eqn:T; simpl.
  - split; [exact Hsrc|]. intros u Hu L.
    pose proof (Hall u Hu L) as Hin.
    apply in_map_iff in Hin. destruct Hin as [r [E Hr]]. exists r. auto.
  - split; [intros r []|]. intros u Hu L. exfalso.
    inversion Hu; subst; try discriminate T.
    destruct (looksLike_object _ L) as [fields ->]. discriminate T.
Qed.

(** ** extractAssistantReplies *)

Section AssistantReplies.

Lemma textsOf_children (key : string) (fields : list (string * JsVal)) :
  ApiClient.textsOf key
    (map (fun field => (fst field, ApiClient.collectTextsDeep (snd field))) fields)
  = ApiClient.collectTextsDeep (lookup key fields).
Proof.
  induction fields as [|[k v] fields IH]; [reflexivity|].
  simpl. destruct (String.eqb key k); [reflexivity | exact IH].
Qed.

(** The walk of the source at an object: [parts], the object's own [text],
    then the eight fields it follows, in this order. *)
Lemma collectTextsDeep_object (fields : list (string * JsVal)) :
  let value := JObj fields in
  ApiClient.collectTextsDeep value
  = ((if isArray (get "parts" value)
      then ApiClient.collectTextsDeep (get "parts" value) else [])
     ++ match get "text" value with
        | JStr text =>
            if ApiClient.nonEmpty (trim text) then [trim text] else []
        | _ => []
        end
     ++ ApiClient.collectTextsDeep (get "content" value)
     ++ ApiClient.collectTextsDeep (get "candidates" value)
     ++ ApiClient.collectTextsDeep (get "contents" value)
     ++ ApiClient.collectTextsDeep (get "output" value)
     ++ ApiClient.collectTextsDeep (get "response" value)
     ++ ApiClient.collectTextsDeep (get "result" value)
     ++ ApiClient.collectTextsDeep (get "data" value)
     ++ (if isArray (get "messages" value)
         then ApiClient.collectTextsDeep (get "messages" value) else []))%list.
Proof.
  intros value. subst value. cbn [get].
  rewrite <- !textsOf_children. reflexivity.
Qed.


End AssistantReplies.


Lemma count_occ_filter (f : string -> bool) (t : string) (l : list string) :
  f t = true ->
  count_occ string_dec (filter f l) t = count_occ string_dec l t.
Proof.
  intros Ht. induction l as [|x l IH]; [reflexivity|]. simpl.
  destruct (string_dec x t) as [->|D].
  - rewrite Ht. simpl. destruct (string_dec t t); [now rewrite IH | contradiction].
  - destruct (f x); simpl; [|exact IH].
    destruct (string_dec x t); [contradiction | exact IH].
Qed.

(** X10. The [response] of an object payload is walked twice, once as a
    source of its own and once inside the payload: every sentence-like text
    under it is returned at least twice. *)
Theorem extractAssistantReplies_repeats_response
    (fields : list (string * JsVal)) (text : string) :
  In text (ApiClient.collectTextsDeep (get "response" (JObj fields))) ->
  ApiClient.looksLikeSentence text = true ->
  (2 <= count_occ string_dec
          (ApiClient.extractAssistantReplies (JObj fields)) text)%nat.
Proof.
  intros Hin Hs. unfold ApiClient.extractAssistantReplies.
  cbn [truthy negb]. cbv iota.
  set (payload := JObj fields) in *.
  set (response := get "response" payload ?? get "result" payload ?? payload).
  set (texts :=
         List.concat
           (map ApiClient.collectTextsDeep
              [get "output" response; get "candidate" response;
               get "candidates" response; get "events" payload;
               get "output" payload; get "response" payload; payload])).
  assert (One : (1 <= count_occ string_dec
                        (ApiClient.collectTextsDeep (get "response" payload)) text)%nat).
  { apply (count_occ_In string_dec) in Hin. lia. }
  assert (Inner : (count_occ string_dec
                     (ApiClient.collectTextsDeep (get "response" payload)) text
                   <= count_occ string_dec (ApiClient.collectTextsDeep payload) text)%nat).
  { subst payload. rewrite collectTextsDeep_object. cbv zeta.
    rewrite !count_occ_app. lia. }
  assert (Two : (2 <= count_occ string_dec texts text)%nat).
  { subst texts. cbn [map List.concat]. rewrite !count_occ_app. lia. }
  assert (Kept : count_occ string_dec (filter ApiClient.looksLikeSentence texts) text
                 = count_occ string_dec texts text)
    by now apply count_occ_filter.
  destruct (filter ApiClient.looksLikeSentence texts) as [|t0 kept] eqn:F.
  - simpl in Kept. lia.
  - lia.
Qed.

(** ** Sorting *)

Section Sorting.

Lemma leb_total (x y : string) : String.leb x y = false -> String.leb y x = true.
Proof.
  unfold String.leb. rewrite (String.compare_antisym x y).
  destruct (String.compare y x); simpl; congruence.
Qed.

Lemma insertSorted_perm (x : string) (l : list string) :
  Permutation (x :: l) (insertSorted x l).
Proof.
  induction l as [|y l IH]; simpl; [reflexivity|].
  destruct (String.leb x y); [reflexivity|].
  rewrite perm_swap. now apply perm_skip.
Qed.

Lemma sort_perm (l : list string) : Permutation l (sort l).
Proof.
  induction l as [|x l IH]; simpl; [constructor|].
  rewrite <- insertSorted_perm. now apply perm_skip.
Qed.

Lemma insertSorted_sorted (x : string) (l : list string) :
  Sorted (fun a b => String.leb a b = true) l ->
  Sorted (fun a b => String.leb a b = true) (insertSorted x l).
Proof.
  induction 1 as [|y l Hl IH Hy]; simpl; [repeat constructor|].
  destruct (String.leb x y) eqn:E.
  - constructor; [now constructor | now constructor].
  - constructor; [exact IH|].
    destruct l as [|z l]; simpl.
    + constructor. now apply leb_total.
    + destruct (String.leb x z); constructor.
      * now apply leb_total.
      * now inversion Hy.
Qed.

Lemma sort_sorted (l : list string) :
  Sorted (fun a b => String.leb a b = true) (sort l).
Proof.
  induction l as [|x l IH]; simpl; [constructor | now apply insertSorted_sorted].
Qed.

End Sorting.

(** ** What the seat-map widget shows *)

(** X11. The list the widget shows in its footer and dialog, and passes to
    [onConfirmSelection], holds exactly the upper-cased selected identifiers,
    each once, in ascending order. *)
Theorem sortedSelected_characterised (p : SeatMapWidget.Props) :
  NoDup (SeatMapWidget.sortedSelected p)
  /\ Sorted (fun a b => String.leb a b = true) (SeatMapWidget.sortedSelected p)
  /\ (forall x, In x (SeatMapWidget.sortedSelected p) <->
        exists s, In s (SeatMapWidget.selectedSeats p) /\ x = toUpperCase s).
Proof.
  unfold SeatMapWidget.sortedSelected, SeatMapWidget.selectedSeatIds.
  split; [|split].
  - apply (Permutation_NoDup (sort_perm _)), arrayFromSet_NoDup.
  - apply sort_sorted.
  - intros x. split.
    + intros H. apply (Permutation_in _ (Permutation_sym (sort_perm _))) in H.
      apply arrayFromSet_In, in_map_iff in H. destruct H as [s [E Hs]].
      exists s. auto.
    + intros [s [Hs ->]]. apply (Permutation_in _ (sort_perm _)).
      apply arrayFromSet_In, in_map. exact Hs.
Qed.

(** X12. The seat chips of the page are the selection in ascending order:
    the same identifiers, as many times. *)
Theorem selectedSeatChips_sorted_selection (s : Page.State) :
  Permutation (Page.selectedSeats s) (Page.selectedSeatChips s)
  /\ Sorted (fun a b => String.leb a b = true) (Page.selectedSeatChips s).
Proof.
  unfold Page.selectedSeatChips.
  destruct (Page.selectedSeats s) as [|x l]; [split; constructor|].
  split; [apply sort_perm | apply sort_sorted].
Qed.

(** X13. A click on a seat never changes the dialog and calls [onSeatToggle]
    at most once, with the upper-cased identifier; it does so exactly when no
    sync is in flight, the handler is there, and the seat is available or
    already selected.  The guard of [handleSeatClick] alone refuses every
    seat whose button is disabled. *)
Theorem seat_click_reaches_page_only_when_allowed
    (p : SeatMapWidget.Props) (seat : SeatMapWidget.Seat) (showDialog : bool) :
  let out := SeatMapWidget.click p showDialog (SeatMapWidget.ClickSeat seat) in
  fst out = showDialog
  /\ (snd out = []
      \/ snd out = [SeatMapWidget.SeatToggle (toUpperCase (SeatMapWidget.id seat))])
  /\ (snd out <> [] <->
      SeatMapWidget.isSyncing p = false
      /\ SeatMapWidget.onSeatToggle p = true
      /\ (SeatMapWidget.status seat = "available"
          \/ In (toUpperCase (SeatMapWidget.id seat))
               (SeatMapWidget.selectedSeatIds p)))
  /\ (SeatMapWidget.seatDisabled p seat = true ->
      SeatMapWidget.handleSeatClick p seat = []).
Proof.
  unfold SeatMapWidget.click, SeatMapWidget.seatDisabled,
    SeatMapWidget.handleSeatClick.
  assert (Av : String.eqb (SeatMapWidget.status seat) "available" = true
               <-> SeatMapWidget.status seat = "available")
    by apply String.eqb_eq.
  assert (Se : includes (SeatMapWidget.selectedSeatIds p)
                 (toUpperCase (SeatMapWidget.id seat)) = true
               <-> In (toUpperCase (SeatMapWidget.id seat))
                     (SeatMapWidget.selectedSeatIds p))
    by apply includes_In.
  destruct (SeatMapWidget.isSyncing p);
    destruct (SeatMapWidget.onSeatToggle p);
    destruct (String.eqb (SeatMapWidget.status seat) "available");
    destruct (includes (SeatMapWidget.selectedSeatIds p)
                (toUpperCase (SeatMapWidget.id seat)));
    cbn [negb andb orb fst snd];
    (split; [reflexivity|]);
    (split; [first [left; reflexivity | right; reflexivity]|]);
    (split; [|first [reflexivity | discriminate]]).
  all: split;
    [ intros H; first
        [ now contradiction H
        | split; [reflexivity|]; split; [reflexivity|];
          first [left; now apply Av | right; now apply Se] ]
    | intros (A & B & C); first
        [ discriminate A | discriminate B | discriminate
        | destruct C as [C|C]; [apply Av in C | apply Se in C]; discriminate C ] ].
Qed.

(** ** The legend *)

Section Legend.

Variable selectedSeatIds : list string.






End Legend.


(** ** More on the seat handlers *)

Lemma filter_out_last (n : string) (prev : list string) :
  ~ In n prev ->
  filter (fun seat => negb (String.eqb seat n)) (prev ++ [n]) = prev.
Proof.
  intros Hn. rewrite filter_app. simpl. rewrite String.eqb_refl. simpl.
  rewrite app_nil_r. induction prev as [|x prev IH]; [reflexivity|].
  simpl. destruct (String.eqb x n) eqn:E.
  - apply String.eqb_eq in E. subst. exfalso. apply Hn. now left.
  - simpl. f_equal. apply IH. intros H. apply Hn. now right.
Qed.

(** X16. Selecting a seat and toggling it again, with room left under the
    limit, gives back the selection as it was, in the same order, and leaves
    the seat error empty. *)
Theorem toggle_twice_restores_selection
    (r : ApiClient.Reservation) (s : Page.State) (seatId : string) :
  Page.reservation s = Some r ->
  Page.isSyncingSeats s = false ->
  toUpperCase (trim seatId) <> "" ->
  ~ In (toUpperCase (trim seatId)) (Page.selectedSeats s) ->
  (Z.of_nat (List.length (Page.selectedSeats s)) < Page.maxSelectable r)%Z ->
  let once := Page.handleSeatToggle seatId s in
  let twice := Page.handleSeatToggle seatId once in
  Page.selectedSeats once
  = (Page.selectedSeats s ++ [toUpperCase (trim seatId)])%list
  /\ Page.selectedSeats twice = Page.selectedSeats s
  /\ Page.seatSyncError twice = "".
Proof.
  intros Hr Hs Hn Hnot Hroom once twice.
  assert (Hid : seatId <> "") by (intros ->; now apply Hn).
  apply String.eqb_neq in Hid. pose proof Hn as Hn'.
  apply String.eqb_neq in Hn'.
  assert (E1 : once
               = Page.setSelectedSeats
                   (Page.selectedSeats s ++ [toUpperCase (trim seatId)])
                   (Page.setSeatSyncError "" s)).
  { subst once. unfold Page.handleSeatToggle. rewrite Hr, Hs, Hid. simpl.
    rewrite Hn'. apply includes_not_In in Hnot. rewrite Hnot.
    assert (G : (Z.of_nat (List.length (Page.selectedSeats s))
                 >=? Page.maxSelectable r)%Z = false) by lia.
    now rewrite G. }
  split; [now rewrite E1|].
  subst twice. rewrite E1. unfold Page.handleSeatToggle. simpl.
  rewrite Hr, Hs, Hid. simpl. rewrite Hn'.
  assert (I : includes (Page.selectedSeats s ++ [toUpperCase (trim seatId)])
                (toUpperCase (trim seatId)) = true).
  { apply includes_In, in_or_app. right. now left. }
  rewrite I. simpl. split; [now apply filter_out_last | reflexivity].
Qed.

Lemma normalizeSeatList_length (l : list JsVal) :
  (List.length (ApiClient.normalizeSeatList l) <= List.length l)%nat.
Proof.
  unfold ApiClient.normalizeSeatList, arrayFromSet.
  pose proof (setFrom_length
                (filter ApiClient.nonEmpty
                   (map ApiClient.normalizeSeatId
                      (filter (fun seat => negb (isNullish seat)) l))) []).
  pose proof (filter_length_le ApiClient.nonEmpty
                (map ApiClient.normalizeSeatId
                   (filter (fun seat => negb (isNullish seat)) l))).
  rewrite length_map in H0.
  pose proof (filter_length_le (fun seat => negb (isNullish seat)) l). lia.
Qed.

(** X17. Whatever list is confirmed, the request carries at most
    [maxSelectable] seats, for the page's reservation id; and a list within
    the limit is sent whole (normalized), nothing is cut. *)
Theorem confirm_never_sends_more_than_limit
    (w : Page.World) (r : ApiClient.Reservation)
    (seatIds : option (list string)) :
  Page.reservation (Page.state w) = Some r ->
  Page.reservationId w <> "" ->
  Page.isSyncingSeats (Page.state w) = false ->
  Page.patchLog (Page.handleSeatConfirm seatIds w)
  = (Page.patchLog w ++ [requestOf r seatIds w])%list
  /\ (Z.of_nat (List.length (ApiClient.selected_seats (requestOf r seatIds w)))
      <= Page.maxSelectable r)%Z
  /\ ((Z.of_nat (List.length (Page.seatsToPersist seatIds (Page.state w)))
       <= Page.maxSelectable r)%Z ->
      ApiClient.selected_seats (requestOf r seatIds w)
      = ApiClient.normalizeSeatList
          (map JStr (Page.seatsToPersist seatIds (Page.state w)))).
Proof.
  intros Hr Hid Hs. split; [|split].
  - now rewrite (handleSeatConfirm_accepted seatIds w r Hr Hid Hs).
  - unfold requestOf. cbn [ApiClient.selected_seats].
    pose proof (normalizeSeatList_length
                  (map JStr
                     (Page.trimSeats (Page.maxSelectable r)
                        (Page.seatsToPersist seatIds (Page.state w))))) as L.
    rewrite length_map in L. unfold Page.trimSeats in *.
    assert (M : (1 <= Page.maxSelectable r)%Z)
      by (unfold Page.maxSelectable; lia).
    destruct (Z.of_nat (List.length (Page.seatsToPersist seatIds (Page.state w)))
              >? Page.maxSelectable r)%Z eqn:G; rewrite ?G in L.
    + unfold slice0 in *.
      pose proof (firstn_le_length (Z.to_nat (Page.maxSelectable r))
                    (Page.seatsToPersist seatIds (Page.state w))). lia.
    + lia.
  - intros Hle. unfold requestOf, Page.trimSeats. cbn [ApiClient.selected_seats].
    assert (G : (Z.of_nat (List.length (Page.seatsToPersist seatIds (Page.state w)))
                 >? Page.maxSelectable r)%Z = false) by lia.
    now rewrite G.
Qed.

(** ** What the page sends *)

(** The log of seat updates after one event: as before, or one request more,
    sent by a call of [handleSeatConfirm] that passed the guards. *)
Lemma step_patchLog (w : Page.World) (e : Page.Event) :
  Page.patchLog (Page.step w e) = Page.patchLog w
  \/ exists seatIds r,
       e = Page.Confirm seatIds
       /\ Page.reservation (Page.state w) = Some r
       /\ Page.reservationId w <> ""
       /\ Page.isSyncingSeats (Page.state w) = false
       /\ Page.patchLog (Page.step w e)
          = (Page.patchLog w ++ [requestOf r seatIds w])%list.
Proof.
  destruct e; simpl; try (now left).
  - destruct (handleSeatConfirm_guards w) as [(r & Hr & Hid & Hs)|G].
    + right. exists seatIds, r. repeat split; auto.
      now rewrite (handleSeatConfirm_accepted seatIds w r Hr Hid Hs).
    + left. now destruct (handleSeatConfirm_refused seatIds w G) as (_ & _ & C).
  - left. unfold Page.confirmSettled.
    now destruct (nth_error (Page.pendingConfirm w) k).
  - left. match goal with |- context [Page.runEffect ?x] =>
      destruct (runEffect_confirm x) as (_ & _ & C) end. now rewrite C.
  - left. match goal with |- context [Page.runEffect ?x] =>
      destruct (runEffect_confirm x) as (_ & _ & C) end. now rewrite C.
  - left. now destruct (loadSettled_confirm i http w) as (_ & _ & C).
Qed.

(** X18. Every seat update the page has ever sent names a non-empty
    reservation id and carries a seat list in normal form: no duplicate, no
    empty, untrimmed or lower-case identifier. *)
Theorem every_seat_update_is_well_formed (w : Page.World) :
  Page.reachable w ->
  Forall
    (fun request =>
       ApiClient.patchReservationId request <> ""
       /\ normalSeatList (ApiClient.selected_seats request))
    (Page.patchLog w).
Proof.
  induction 1 as [id loc|w e _ IH].
  - unfold Page.mount.
    match goal with |- context [Page.runEffect ?x] =>
      destruct (runEffect_confirm x) as (_ & _ & C) end.
    rewrite C. constructor.
  - destruct (step_patchLog w e) as [E|(seatIds & r & _ & _ & Hid & _ & E)];
      rewrite E; [exact IH|].
    apply Forall_app. split; [exact IH|]. constructor; [|constructor].
    split; [exact Hid | apply normalizeSeatList_normal].
Qed.

(** X19. Only a confirm sends a seat update: toggles, dialog events, loads,
    retries, navigation and settling requests leave the log of sent updates
    as it is, and no event ever removes or changes a sent request. *)
Theorem only_confirm_sends_seat_updates (w : Page.World) (e : Page.Event) :
  ((forall seatIds, e <> Page.Confirm seatIds) ->
   Page.patchLog (Page.step w e) = Page.patchLog w)
  /\ (exists sent,
        Page.patchLog (Page.step w e) = (Page.patchLog w ++ sent)%list
        /\ (List.length sent <= 1)%nat).
Proof.
  destruct (step_patchLog w e) as [E|(seatIds & r & He & _ & _ & _ & E)].
  - split; [intros _; exact E|]. exists []. rewrite app_nil_r. split; [exact E|].
    simpl. lia.
  - split; [intros H; now contradiction (H seatIds)|].
    exists [requestOf r seatIds w]. split; [exact E | simpl; lia].
Qed.

(** X20. When the load of the current run of the effect succeeds, the page
    shows the gateway's reservation: its selection replaces whatever was
    selected locally, the seat map is its seat map, the timestamp is the
    [updatedAt] of its seat selection (the empty string when that is null),
    which is the first of the envelope's [seat_selection.updated_at],
    [seat_selection.updatedAt] and [reservation.seat_assignments_updated_at]
    that is not nullish, both errors are cleared and [loading] ends; a sync
    in flight and the seat dialog are left as they are. *)
Theorem successful_load_shows_reservation
    (w : Page.World) (i : nat) (run : Page.EffectRun) (id : string)
    (envelope : JsVal) :
  nth_error (Page.effects w) i = Some run ->
  Page.request run = Some id ->
  id <> "" ->
  Page.settled run = false ->
  Page.cancelled run = false ->
  truthy (get "ok" envelope) = true ->
  let loaded := ApiClient.normalizeReservationPayload envelope in
  let container := get "data" envelope ?? envelope in
  let selectionRaw := get "seat_selection" container ?? emptyObj in
  let returned := get "reservation" container ?? emptyObj in
  let s' :=
    Page.state
      (Page.step w (Page.LoadSettled i (ApiClient.Responded envelope))) in
  Page.reservation s' = Some loaded
  /\ Some (Page.selectedSeats s') = ApiClient.selectedSeats loaded
  /\ Page.seatMap s' = ApiClient.seatMap loaded
  /\ (exists selection,
        ApiClient.seatSelection loaded = Some selection
        /\ Page.seatSelectionUpdatedAt s'
           = ApiClient.SeatSelection.updatedAt selection ?? JStr "")
  /\ Page.seatSelectionUpdatedAt s'
     = get "updated_at" selectionRaw ?? get "updatedAt" selectionRaw
         ?? get "seat_assignments_updated_at" returned ?? JStr ""
  /\ Page.error s' = ""
  /\ Page.seatSyncError s' = ""
  /\ Page.loading s' = false
  /\ Page.isSyncingSeats s' = Page.isSyncingSeats (Page.state w)
  /\ Page.isSeatModalOpen s' = Page.isSeatModalOpen (Page.state w).
Proof.
  intros E Hreq Hid Hset Hc Hok loaded container selectionRaw returned s'.
  assert (Hs : s' = Page.loadReservation_settle false (inr (loaded, envelope))
                      (Page.state w)).
  { subst s'. simpl. unfold Page.loadSettled. rewrite E, Hreq, Hset. simpl.
    rewrite Hc. unfold ApiClient.fetchReservationById.
    apply String.eqb_neq in Hid. rewrite Hid. simpl. now rewrite Hok. }
  rewrite Hs.
  cbn [Page.loadReservation_settle Page.reservation Page.selectedSeats
       Page.seatMap Page.seatSelectionUpdatedAt Page.error Page.seatSyncError
       Page.loading Page.isSyncingSeats Page.isSeatModalOpen
       Page.setLoading Page.setSeatSyncError Page.setSeatSelectionUpdatedAt
       Page.setSelectedSeats Page.setSeatMap Page.setError Page.setReservation].
  split; [reflexivity|]. split; [apply seatsOf_normalized|].
  split; [apply seatMap_normalized|].
  split; [eexists; split; reflexivity|].
  split; [exact (coalesce_default _ _ _ _)|].
  repeat split; reflexivity.
Qed.

Lemma cancelLast_requests (runs : list Page.EffectRun) (run : Page.EffectRun) :
  In run (Page.cancelLast runs) ->
  exists run', In run' runs /\ Page.request run = Page.request run'.
Proof.
  induction runs as [|x runs IH]; [intros []|].
  destruct runs as [|y runs].
  - simpl. intros [<-|[]]. exists x. split; [now left | reflexivity].
  - change (Page.cancelLast (x :: y :: runs))
      with (x :: Page.cancelLast (y :: runs)).
    intros [<-|H]; [exists x; split; [now left | reflexivity]|].
    destruct (IH H) as [run' [Hin E]]. exists run'. split; [now right | exact E].
Qed.

Lemma settleNth_requests (i : nat) (runs : list Page.EffectRun)
    (run : Page.EffectRun) :
  In run (Page.settleNth i runs) ->
  exists run', In run' runs /\ Page.request run = Page.request run'.
Proof.
  revert i. induction runs as [|x runs IH]; intros i; [destruct i; intros []|].
  destruct i as [|j]; simpl.
  - intros [<-|H]; [exists x; split; [now left | reflexivity]|].
    exists run. split; [now right | reflexivity].
  - intros [<-|H]; [exists x; split; [now left | reflexivity]|].
    destruct (IH j H) as [run' [Hin E]]. exists run'. split; [now right | exact E].
Qed.

(** X21. The page never asks the gateway for the empty reservation id: every
    load it has started is for a non-empty id, so [fetchReservationById]
    never throws RESERVATION_ID_REQUIRED for it; and a page opened without an
    id starts no load at all, shows the missing-id error and is not
    loading. *)
Theorem page_never_fetches_empty_id (w : Page.World) :
  Page.reachable w ->
  (forall run id,
      In run (Page.effects w) -> Page.request run = Some id -> id <> "")
  /\ (forall locationReservation,
        let opened := Page.mount "" locationReservation in
        Forall (fun run => Page.request run = None) (Page.effects opened)
        /\ Page.loading (Page.state opened) = false
        /\ Page.error (Page.state opened) = "Reservation ID missing from the link."
        /\ Page.patchLog opened = []).
Proof.
  intros Hw. split.
  - assert (Run : forall w0,
               (forall run id, In run (Page.effects w0) ->
                               Page.request run = Some id -> id <> "") ->
               forall run id, In run (Page.effects (Page.runEffect w0)) ->
                              Page.request run = Some id -> id <> "").
    { intros w0 H0 run id. unfold Page.runEffect.
      destruct (String.eqb (Page.reservationId w0) "") eqn:E; simpl;
        intros Hin; apply in_app_or in Hin;
        destruct Hin as [Hin|[<-|[]]]; try (now apply H0); simpl;
        [discriminate|].
      intros H. injection H as <-. now apply String.eqb_neq. }
    assert (Clean : forall w0,
               (forall run id, In run (Page.effects w0) ->
                               Page.request run = Some id -> id <> "") ->
               forall run id, In run (Page.cancelLast (Page.effects w0)) ->
                              Page.request run = Some id -> id <> "").
    { intros w0 H0 run id Hin Hreq.
      destruct (cancelLast_requests _ _ Hin) as [run' [Hin' E]].
      apply (H0 run' id Hin'). congruence. }
    induction Hw as [id0 loc|w e _ IH].
    + unfold Page.mount. apply Run. simpl. intros run id [].
    + destruct e; simpl; try exact IH.
      * now rewrite handleSeatConfirm_effects.
      * unfold Page.confirmSettled.
        destruct (nth_error (Page.pendingConfirm w) k); exact IH.
      * apply Run. simpl. now apply Clean.
      * apply Run. simpl.
        apply (Clean (Page.withState (Page.state w) w)). exact IH.
      * now apply Clean.
      * intros run id Hin Hreq.
        destruct (loadSettled_effects i http w) as [E|E]; rewrite E in Hin;
          [exact (IH run id Hin Hreq)|].
        destruct (settleNth_requests _ _ _ Hin) as [run' [Hin' E']].
        apply (IH run' id Hin'). congruence.
  - intros loc opened. subst opened. unfold Page.mount, Page.runEffect.
    cbn [Page.reservationId String.eqb]. simpl.
    repeat split; repeat constructor.
Qed.

(** ** The selection stays in normal form *)

Section SelectionNormal.

Lemma normalSeatList_nil : normalSeatList [].
Proof. split; constructor. Qed.

Lemma handleSeatToggle_normal (seatId : string) (s : Page.State) :
  normalSeatList (Page.selectedSeats s) ->
  normalSeatList (Page.selectedSeats (Page.handleSeatToggle seatId s)).
Proof.
  intros [Hnd Hall].
  destruct (Page.reservation s) as [r|] eqn:Hr.
  2:{ unfold Page.handleSeatToggle. rewrite Hr. now split. }
  destruct (handleSeatToggle_cases r seatId s Hr)
    as [E|[(_ & _ & E & _)|[(_ & _ & E & _)|(Hn & _ & E & _)]]]; rewrite E.
  - now split.
  - split; [now apply NoDup_filter|].
    apply Forall_forall. intros x Hx. apply filter_In in Hx.
    rewrite Forall_forall in Hall. now apply Hall.
  - now split.
  - split; [now apply NoDup_snoc|].
    apply Forall_app. split; [exact Hall|]. constructor; [|constructor].
    assert (Hne : toUpperCase (trim seatId) <> "").
    { intros F. revert E. unfold Page.handleSeatToggle. rewrite Hr.
      destruct (String.eqb seatId "" || Page.isSyncingSeats s).
      - intros E. apply (f_equal (@List.length string)) in E.
        rewrite length_app in E. simpl in E. lia.
      - rewrite F. simpl. intros E. apply (f_equal (@List.length string)) in E.
        rewrite length_app in E. simpl in E. lia. }
    split; [exact Hne | apply normalized_fixed].
Qed.

Lemma handleSeatToggle_keeps (seatId : string) (w : Page.World) :
  selectionNormal w ->
  selectionNormal (Page.withState (Page.handleSeatToggle seatId (Page.state w)) w).
Proof.
  intros (A & B & C & D). split; [|split; [|split]]; simpl.
  - now apply handleSeatToggle_normal.
  - now rewrite handleSeatToggle_reservation.
  - exact C.
  - exact D.
Qed.

Lemma handleSeatConfirm_keeps (seatIds : option (list string)) (w : Page.World) :
  selectionNormal w -> selectionNormal (Page.handleSeatConfirm seatIds w).
Proof.
  intros (A & B & C & D).
  destruct (handleSeatConfirm_guards w) as [(r & Hr & Hid & Hs)|G].
  - rewrite (handleSeatConfirm_accepted seatIds w r Hr Hid Hs).
    split; [|split; [|split]]; simpl; auto.
    apply Forall_app. split; [exact D|]. constructor; [|constructor].
    simpl. rewrite Hr in B. exact B.
  - unfold Page.handleSeatConfirm.
    destruct (Page.reservation (Page.state w)) as [r|] eqn:Hr.
    + destruct (String.eqb (Page.reservationId w) "") eqn:Hid.
      * split; [|split; [|split]]; simpl; auto. now rewrite Hr.
      * destruct (Page.isSyncingSeats (Page.state w)) eqn:Hs.
        -- split; [|split; [|split]]; auto. now rewrite Hr.
        -- apply String.eqb_neq in Hid.
           destruct G as [G|[G|G]]; [discriminate | contradiction | discriminate].
    + split; [|split; [|split]]; simpl; auto. now rewrite Hr.
Qed.

Lemma removeNth_Forall {A : Type} (P : A -> Prop) (k : nat) (l : list A) :
  Forall P l -> Forall P (Page.removeNth k l).
Proof.
  intros H. unfold Page.removeNth. revert k.
  induction H as [|x l Hx Hl IH]; intros k.
  - destruct k; constructor.
  - destruct k as [|k]; simpl; [exact Hl|]. constructor; [exact Hx | apply IH].
Qed.

Lemma confirmSettled_keeps (k : nat) (http : ApiClient.HttpOutcome)
    (w : Page.World) :
  selectionNormal w -> selectionNormal (Page.confirmSettled k http w).
Proof.
  intros (A & B & C & D). unfold Page.confirmSettled.
  destruct (nth_error (Page.pendingConfirm w) k) as [call|] eqn:E;
    [|exact (conj A (conj B (conj C D)))].
  assert (Hcall : normalSeatList (Page.previousServerSeats call)).
  { rewrite Forall_forall in D. apply D. exact (nth_error_In _ _ E). }
  destruct (ApiClient.updateReservationSeatSelection_settle http)
    as [err|[updated e]] eqn:S.
  - split; [|split; [|split]]; simpl; auto. now apply removeNth_Forall.
  - apply settle_success in S. destruct S as (_ & _ & ->).
    split; [|split; [|split]]; simpl.
    + apply normalizeSeatList_normal.
    + apply normalizeSeatList_normal.
    + exact C.
    + now apply removeNth_Forall.
Qed.

Lemma runEffect_keeps (w : Page.World) :
  selectionNormal w -> selectionNormal (Page.runEffect w).
Proof.
  intros (A & B & C & D). unfold Page.runEffect.
  destruct (String.eqb (Page.reservationId w) "");
    [exact (conj A (conj B (conj C D)))|].
  destruct (Page.preloadedReservation w) as [p|] eqn:Hp.
  - destruct (Nat.eqb (Page.refreshCount (Page.state w)) 0).
    + split; [exact C|]. split; [exact C|].
      split; [simpl; rewrite Hp; exact C | exact D].
    + split; [exact A|]. split; [exact B|].
      split; [simpl; rewrite Hp; exact C | exact D].
  - split; [exact A|]. split; [exact B|].
    split; [simpl; rewrite Hp; exact I | exact D].
Qed.

Lemma loadSettled_keeps (i : nat) (http : ApiClient.HttpOutcome)
    (w : Page.World) :
  selectionNormal w -> selectionNormal (Page.loadSettled i http w).
Proof.
  intros (A & B & C & D). unfold Page.loadSettled.
  destruct (nth_error (Page.effects w) i) as [run|]; [|exact (conj A (conj B (conj C D)))].
  destruct (Page.request run) as [id|]; [|exact (conj A (conj B (conj C D)))].
  destruct (Page.settled run); [exact (conj A (conj B (conj C D)))|].
  unfold Page.loadReservation_settle.
  destruct (Page.cancelled run); [exact (conj A (conj B (conj C D)))|].
  destruct (ApiClient.fetchReservationById id http) as [err|[loaded e]] eqn:F.
  - split; [|split; [|split]]; simpl; auto. apply normalSeatList_nil.
  - apply fetch_success in F. subst loaded.
    split; [|split; [|split]]; simpl; auto; apply normalizeSeatList_normal.
Qed.

Lemma preloadedFor_normal (id : string)
    (locationReservation : option ApiClient.Reservation) :
  normalPreload locationReservation ->
  normalPreload (Page.preloadedFor id locationReservation).
Proof.
  destruct locationReservation as [r|]; [|trivial]. simpl. intros H.
  destruct (ApiClient.reservationId r); try exact I.
  destruct (String.eqb s id); [exact H | exact I].
Qed.

Lemma step_keeps (w : Page.World) (e : Page.Event) :
  normalEvent e -> selectionNormal w -> selectionNormal (Page.step w e).
Proof.
  intros He Hw. destruct e; simpl.
  - now apply handleSeatToggle_keeps.
  - now apply handleSeatConfirm_keeps.
  - now apply confirmSettled_keeps.
  - destruct Hw as (A & B & C & D). unfold Page.handleOpenSeatModal.
    destruct (negb (truthy (Page.seatMap (Page.state w)))); exact (conj A (conj B (conj C D))).
  - destruct Hw as (A & B & C & D). exact (conj A (conj B (conj C D))).
  - apply runEffect_keeps. destruct Hw as (A & B & C & D). exact (conj A (conj B (conj C D))).
  - apply runEffect_keeps. destruct Hw as (A & B & C & D).
    split; [|split; [|split]]; simpl; auto.
    now apply preloadedFor_normal.
  - destruct Hw as (A & B & C & D). exact (conj A (conj B (conj C D))).
  - now apply loadSettled_keeps.
Qed.

Lemma mount_keeps (id : string)
    (locationReservation : option ApiClient.Reservation) :
  normalPreload locationReservation ->
  selectionNormal (Page.mount id locationReservation).
Proof.
  intros H. unfold Page.mount. apply runEffect_keeps.
  pose proof (preloadedFor_normal id _ H) as P.
  split; [|split; [|split]]; simpl; auto.
  destruct (Page.preloadedFor id locationReservation);
    [exact P | apply normalSeatList_nil].
Qed.

End SelectionNormal.

(** X15. As long as every reservation handed to the page from outside (the
    preloaded one, at opening or on navigation) has its selection in normal
    form, as the extracted ones have, the page's selection is in normal form
    after any sequence of toggles, confirms, loads, retries and settled
    requests: no duplicate and no empty, untrimmed or lower-case identifier;
    and so is the reservation's own selection. *)
Theorem selection_always_normal
    (id : string) (locationReservation : option ApiClient.Reservation)
    (events : list Page.Event) :
  normalPreload locationReservation ->
  Forall normalEvent events ->
  let w := Page.run (Page.mount id locationReservation) events in
  normalSeatList (Page.selectedSeats (Page.state w))
  /\ (forall r, Page.reservation (Page.state w) = Some r ->
        normalSeatList (Page.seatsOf r [])).
Proof.
  intros Hloc Hev w.
  assert (Inv : selectionNormal w).
  { subst w. unfold Page.run.
    pose proof (mount_keeps id locationReservation Hloc) as H0.
    revert H0. generalize (Page.mount id locationReservation).
    induction Hev as [|e events He _ IH]; intros w0 H0; [exact H0|].
    simpl. apply IH. now apply step_keeps. }
  destruct Inv as (A & B & _). split; [exact A|].
  intros r Hr. rewrite Hr in B. exact B.
Qed.

(** ** Offsets *)

Section Offsets.

Lemma digitValue_inv (c : ascii) (a : Z) :
  Page.digitValue c = Some a ->
  (0 <= a <= 9)%Z /\ c = ascii_of_nat (48 + Z.to_nat a).
Proof.
  unfold Page.digitValue.
  destruct ((48 <=? nat_of_ascii c)%nat && (nat_of_ascii c <=? 57)%nat) eqn:E;
    [|discriminate].
  apply andb_true_iff in E. destruct E as [L U].
  apply Nat.leb_le in L. apply Nat.leb_le in U.
  intros H. injection H as <-. split; [lia|].
  rewrite Nat2Z.id. replace (48 + (nat_of_ascii c - 48))%nat with (nat_of_ascii c)
    by lia.
  now rewrite ascii_nat_embedding.
Qed.

Lemma two_digits (a b : Z) :
  (0 <= a <= 9)%Z -> (0 <= b <= 9)%Z ->
  padStart2 (numToString (10 * a + b))
  = String (ascii_of_nat (48 + Z.to_nat a))
      (String (ascii_of_nat (48 + Z.to_nat b)) EmptyString).
Proof.
  intros Ha Hb.
  assert (A : (a = 0 \/ a = 1 \/ a = 2 \/ a = 3 \/ a = 4 \/ a = 5 \/ a = 6
               \/ a = 7 \/ a = 8 \/ a = 9)%Z) by lia.
  assert (B : (b = 0 \/ b = 1 \/ b = 2 \/ b = 3 \/ b = 4 \/ b = 5 \/ b = 6
               \/ b = 7 \/ b = 8 \/ b = 9)%Z) by lia.
  clear Ha Hb.
  repeat (destruct A as [-> | A]); try subst a;
    repeat (destruct B as [-> | B]); try subst b; reflexivity.
Qed.

End Offsets.

(** X22. The offset label gives back the offset it was computed from: for an
    offset of a sign, two digits, a colon and two digits, with minutes under
    60, the label of the parsed offset is UTC followed by the offset itself,
    and plain UTC when the offset is zero; the offset Z is zero too. *)
Theorem offset_label_round_trip
    (s h1 h2 m1 m2 : ascii) (a b d e : Z) :
  s = "+"%char \/ s = "-"%char ->
  Page.digitValue h1 = Some a ->
  Page.digitValue h2 = Some b ->
  Page.digitValue m1 = Some d ->
  Page.digitValue m2 = Some e ->
  (10 * d + e < 60)%Z ->
  let offset :=
    String s (String h1 (String h2 (String ":" (String m1 (String m2 ""))))) in
  let total := ((10 * a + b) * 60 + (10 * d + e))%Z in
  exists minutes,
    Page.offsetMinutesOf offset = Some minutes
    /\ Z.abs minutes = total
    /\ Page.formatOffsetLabel minutes
       = (if Z.eqb total 0 then "UTC" else "UTC" ++ offset)
    /\ Page.offsetMinutesOf "Z" = Some 0%Z
    /\ Page.formatOffsetLabel 0 = "UTC".
Proof.
  intros Hs Ha Hb Hd He Hm offset total.
  destruct (digitValue_inv _ _ Ha) as [Ra Ea].
  destruct (digitValue_inv _ _ Hb) as [Rb Eb].
  destruct (digitValue_inv _ _ Hd) as [Rd Ed].
  destruct (digitValue_inv _ _ He) as [Re Ee].
  assert (Hdiv : (total / 60 = 10 * a + b)%Z).
  { subst total. rewrite Z.div_add_l by lia. rewrite Z.div_small; lia. }
  assert (Hmod : (total mod 60 = 10 * d + e)%Z).
  { subst total. rewrite Z.add_comm, Z.mod_add by lia. apply Z.mod_small. lia. }
  assert (Label : forall minutes sign,
             Z.abs minutes = total -> total <> 0%Z ->
             (if (minutes >? 0)%Z then "+" else "-") = String sign "" ->
             Page.formatOffsetLabel minutes
             = "UTC" ++ String sign
                 (String h1 (String h2 (String ":" (String m1 (String m2 "")))))).
  { intros minutes sign Habs Hnz Hsign. unfold Page.formatOffsetLabel.
    assert (Z0 : Z.eqb minutes 0 = false) by lia. rewrite Z0, Habs, Hdiv, Hmod.
    rewrite Hsign, (two_digits a b Ra Rb), (two_digits d e Rd Re).
    rewrite <- Ea, <- Eb, <- Ed, <- Ee. reflexivity. }
  assert (Parse : Page.offsetMinutesOf offset
                  = Some ((if Ascii.eqb s "-" then -1 else 1) * total)%Z).
  { subst offset. unfold Page.offsetMinutesOf.
    assert (NZ : String.eqb
                   (String s (String h1 (String h2 (String ":" (String m1 (String m2 ""))))))
                   "Z" = false).
    { simpl. destruct (Ascii.eqb s "Z"); reflexivity. }
    rewrite NZ, Ha, Hb, Hd, He.
    destruct Hs as [-> | ->]; reflexivity. }
  exists ((if Ascii.eqb s "-" then -1 else 1) * total)%Z.
  split; [exact Parse|].
  assert (Pos : (0 <= total)%Z) by (subst total; lia).
  split; [destruct (Ascii.eqb s "-"); lia|].
  split; [|split; reflexivity].
  destruct (Z.eqb total 0) eqn:Z0.
  - apply Z.eqb_eq in Z0. rewrite Z0. now destruct (Ascii.eqb s "-").
  - apply Z.eqb_neq in Z0. subst offset.
    destruct Hs as [-> | ->]; cbn [Ascii.eqb Bool.eqb]; simpl Ascii.eqb.
    + apply Label; [lia | exact Z0|].
      assert (G : (1 * total >? 0)%Z = true) by lia. now rewrite G.
    + apply Label; [lia | exact Z0|].
      assert (G : (-1 * total >? 0)%Z = false) by lia. now rewrite G.
Qed.

(** ** The further properties on the sample data *)

Lemma rejectedWorld_reachable : Page.reachable rejectedWorld.
Proof.
  exact (Page.reachable_step _ _
           (Page.reachable_step _ _
              (Page.reachable_step _ _ loadedWorld_reachable))).
Qed.


Lemma refused_request_message_by_status_witness :
  exists err,
    ApiClient.fetchReservationById "R1" (ApiClient.Refused 404 refusedBody)
    = inl err
    /\ ApiClient.message err
       = Some "We could not find a reservation with that ID.".
Proof.
  destruct (refused_request_message_by_status "R1" 404 refusedBody)
    as [err (A & B & _)].
  - discriminate.
  - reflexivity.
  - exists err. split; [exact A | exact B].
Defined.

Lemma normalize_unwraps_data_witness :
  ApiClient.normalizeReservationPayload (JObj [("data", sampleEnvelope)])
  = ApiClient.normalizeReservationPayload sampleEnvelope.
Proof. apply normalize_unwraps_data; reflexivity. Defined.

(** The chat payload names R1 twice: one reservation R1 is kept, the first,
    with seat 1A, and R2 after it. *)
Example extractReservations_keeps_first :
  map ApiClient.reservationId (ApiClient.extractReservations chatPayload)
  = [JStr "R1"; JStr "R2"]
  /\ map ApiClient.selectedSeats (ApiClient.extractReservations chatPayload)
     = [Some ["1A"]; Some []]
  /\ ApiClient.extractAssistantReplies chatPayload
     = ["Your booking is confirmed."].
Proof. vm_compute. repeat split. Qed.

Lemma extractAssistantReplies_repeats_response_witness :
  (2 <= count_occ string_dec
          (ApiClient.extractAssistantReplies (JObj responseFields))
          "Hello there")%nat.
Proof.
  apply extractAssistantReplies_repeats_response.
  - left. reflexivity.
  - reflexivity.
Defined.

Lemma selection_always_normal_witness :
  normalSeatList
    (Page.selectedSeats
       (Page.state (Page.run (Page.mount "R1" None) sampleEvents))).
Proof.
  destruct (selection_always_normal "R1" None sampleEvents) as [A _].
  - exact I.
  - repeat constructor.
  - exact A.
Defined.

Lemma toggle_twice_restores_selection_witness :
  Page.selectedSeats
    (Page.handleSeatToggle "2b"
       (Page.handleSeatToggle "2b" (Page.state loadedWorld)))
  = Page.selectedSeats (Page.state loadedWorld).
Proof.
  destruct (toggle_twice_restores_selection
              (ApiClient.normalizeReservationPayload sampleEnvelope)
              (Page.state loadedWorld) "2b") as (_ & A & _).
  - reflexivity.
  - reflexivity.
  - discriminate.
  - vm_compute. intros [H|[]]. discriminate H.
  - vm_compute. reflexivity.
  - exact A.
Defined.

Lemma confirm_never_sends_more_than_limit_witness :
  (Z.of_nat
     (List.length
        (ApiClient.selected_seats
           (requestOf (ApiClient.normalizeReservationPayload sampleEnvelope)
              (Some ["3A"; "3A"; "3B"]) loadedWorld)))
   <= Page.maxSelectable (ApiClient.normalizeReservationPayload sampleEnvelope))%Z.
Proof.
  destruct (confirm_never_sends_more_than_limit loadedWorld
              (ApiClient.normalizeReservationPayload sampleEnvelope)
              (Some ["3A"; "3A"; "3B"])) as (_ & A & _).
  - reflexivity.
  - discriminate.
  - reflexivity.
  - exact A.
Defined.

Lemma every_seat_update_is_well_formed_witness :
  Forall
    (fun request =>
       ApiClient.patchReservationId request <> ""
       /\ normalSeatList (ApiClient.selected_seats request))
    (Page.patchLog rejectedWorld).
Proof.
  exact (every_seat_update_is_well_formed rejectedWorld rejectedWorld_reachable).
Defined.

Lemma successful_load_shows_reservation_witness :
  Page.reservation
    (Page.state
       (Page.step (Page.mount "R1" None)
          (Page.LoadSettled 0 (ApiClient.Responded sampleEnvelope))))
  = Some (ApiClient.normalizeReservationPayload sampleEnvelope)
  /\ Page.seatSelectionUpdatedAt (Page.state (Page.mount "R1" None)) = JStr ""
  /\ Page.seatSelectionUpdatedAt
       (Page.state
          (Page.step (Page.mount "R1" None)
             (Page.LoadSettled 0 (ApiClient.Responded sampleEnvelope))))
     = JStr "t0".
Proof.
  destruct (successful_load_shows_reservation (Page.mount "R1" None) 0
              firstRun "R1" sampleEnvelope) as (A & _ & _ & _ & B & _).
  - reflexivity.
  - reflexivity.
  - discriminate.
  - reflexivity.
  - reflexivity.
  - reflexivity.
  - split; [exact A|]. split; [reflexivity | conclude B].
Defined.

Lemma page_never_fetches_empty_id_witness :
  Page.error (Page.state (Page.mount "" None))
  = "Reservation ID missing from the link."
  /\ Page.patchLog (Page.mount "" None) = [].
Proof.
  destruct (proj2 (page_never_fetches_empty_id reloadingWorld
                     reloadingWorld_reachable) None) as (_ & _ & A & B).
  exact (conj A B).
Defined.

Lemma offset_label_round_trip_witness :
  exists minutes,
    Page.offsetMinutesOf "+05:30" = Some minutes
    /\ Page.formatOffsetLabel minutes = "UTC+05:30".
Proof.
  destruct (offset_label_round_trip "+" "0" "5" "3" "0" 0 5 3 0)
    as [minutes (A & _ & B & _)].
  - now left.
  - reflexivity.
  - reflexivity.
  - reflexivity.
  - reflexivity.
  - lia.
  - exists minutes. split; [exact A | exact B].
Defined.
